(** * my_it_store: the inventory / point-of-sale application of [app.py]

    A shallow embedding of the Flask application: the three tables
    (employee, product, sale) as finite maps from primary key to row, the
    SQLAlchemy unit of work as a working copy that [commit] publishes, the
    Flask session and flashed messages as explicit state, and every view
    function as a computation in a small state-and-exception monad.

    Conventions.
    - Python [int] is unbounded: [Z].  Python [str] is a sequence of code
      points: [list N].  [datetime] values are abstract instants: [Z].
    - SQLite keeps an INTEGER in 64 signed bits and turns a NaN into NULL:
      a flush that writes an integer outside that range, or a NaN into a
      NOT NULL column, raises, and the commit publishes nothing.
    - [Product.price] and [Sale.total_price] are Python floats.  The
      development is parametric in the carrier [money] of prices and in a
      [Platform] over it: the product [money_mul_int] of a price by an
      integer (line 211), undefined where Python raises OverflowError, the
      comparison [money_eqb] the ORM uses to detect a changed attribute,
      the test [money_is_nan], and werkzeug's [generate_password_hash] and
      [check_password_hash].  The salt the former draws is part of the
      request environment, as are the successive readings of the clock by
      [datetime.utcnow].
    - A request carries its form already decoded (Flask answers 400 to a
      missing field, and [int()] / [float()] raise before any store
      access). *)

From Stdlib Require Import ZArith NArith List Ascii String SpecFloat.
From stdpp Require Import base option list gmap fin_maps sorting strings.

Local Open Scope Z_scope.

(** ** Basic data *)

Abbreviation text := (list N) (only parsing).
Abbreviation datetime := Z (only parsing).

(** Code points of an ASCII literal, for writing concrete inputs. *)
Definition str (s : string) : text :=
  List.map N_of_ascii (list_ascii_of_string s).

(** The category argument of [flash]. *)
Inductive Category := success | error.

(** The messages the views flash (Thai in the source), one constructor per
    string literal, plus the two messages [validate_password] returns. *)
Inductive Message :=
| msg_password_too_short      (* line 59 *)
| msg_password_no_lowercase   (* line 61 *)
| msg_password_no_uppercase   (* line 63 *)
| msg_password_no_digit       (* line 65 *)
| msg_password_safe           (* line 66 *)
| msg_login_first             (* line 72 *)
| msg_login_ok                (* line 96 *)
| msg_invalid_credentials     (* line 99 *)
| msg_password_mismatch       (* line 119 *)
| msg_username_taken          (* line 123 *)
| msg_email_taken             (* line 127 *)
| msg_register_ok             (* line 141 *)
| msg_product_added           (* line 164 *)
| msg_product_updated         (* line 179 *)
| msg_product_deleted         (* line 189 *)
| msg_insufficient_stock      (* line 208 *)
| msg_sale_recorded           (* line 222 *)
| msg_logout_ok.              (* line 231 *)

(** The view functions, as [url_for] names them. *)
Inductive Endpoint :=
| ep_home | ep_login | ep_register | ep_products | ep_add_product
| ep_edit_product | ep_delete_product | ep_sales | ep_add_sale | ep_logout.

(** Exceptions that end a request: [get_or_404] aborts with 404, any other
    uncaught exception becomes a 500 response. *)
Inductive Failure := NotFound | InternalServerError.

#[global] Instance Category_eq_dec : EqDecision Category.
Proof. solve_decision. Defined.
#[global] Instance Message_eq_dec : EqDecision Message.
Proof. solve_decision. Defined.
#[global] Instance Endpoint_eq_dec : EqDecision Endpoint.
Proof. solve_decision. Defined.

(** ** Password policy (lines 57-66) *)

Definition in_range (lo hi c : N) : bool := ((lo <=? c) && (c <=? hi))%N.

(** [re.search("[a-z]", s)]: some code point of [s] lies in the class. *)
Definition re_search_class (lo hi : N) (s : text) : bool :=
  existsb (in_range lo hi) s.

Definition lower_a : N := 97.
Definition lower_z : N := 122.
Definition upper_A : N := 65.
Definition upper_Z : N := 90.
Definition digit_0 : N := 48.
Definition digit_9 : N := 57.

Definition validate_password (password : text) : bool * Message :=
  if (length password <? 8)%nat then (false, msg_password_too_short)
  else if negb (re_search_class lower_a lower_z password)
       then (false, msg_password_no_lowercase)
  else if negb (re_search_class upper_A upper_Z password)
       then (false, msg_password_no_uppercase)
  else if negb (re_search_class digit_0 digit_9 password)
       then (false, msg_password_no_digit)
  else (true, msg_password_safe).

(** ** The store *)

(** What fits an INTEGER column: the driver refuses a Python [int] outside
    the signed 64-bit range with OverflowError. *)
Definition int64 (n : Z) : bool := (- 2 ^ 63 <=? n) && (n <? 2 ^ 63).
Arguments int64 : simpl never.

(** Primary keys are assigned by the engine: one more than the largest key
    in use, 1 for an empty table. *)
Definition max_key {A} (t : gmap Z A) : Z :=
  foldr (fun kv acc => Z.max kv.1 acc) 0 (map_to_list t).

Definition next_id {A} (t : gmap Z A) : Z := max_key t + 1.

(** ** What the application takes from its libraries *)

(** Prices ([db.Float]) with the product of a price by an [int] ([None]
    where the [int] is too large to convert to a float and Python raises
    OverflowError), the [==] the ORM compares attribute values with and
    the test for NaN; werkzeug's password hashing, [generate_password_hash]
    with the salt it draws made an argument. *)
Class Platform (money : Type) := {
  money_mul_int : money -> Z -> option money;
  money_eqb : money -> money -> bool;
  money_is_nan : money -> bool;
  generate_password_hash : text -> text -> text;
  check_password_hash : text -> text -> bool
}.

Section Application.

Context {money : Type} `{Platform money}.

(** Rows.  The primary key [id] of a row is its key in the table. *)
Record Employee := {
  username : text;
  password_hash : text;
  fullname : text;
  position : text;
  email : text;
  phone : text;
  created_at : datetime;
  last_login : option datetime
}.

Record Product := {
  name : text;
  description : text;
  price : money;
  stock : Z;
  category : text;
  product_created_at : datetime;
  updated_at : datetime
}.

Record Sale := {
  product_id : Z;
  employee_id : Z;
  quantity : Z;
  total_price : money;
  sale_date : datetime
}.

Record Store := {
  employee_table : gmap Z Employee;
  product_table : gmap Z Product;
  sale_table : gmap Z Sale
}.

(** The Flask session: the ["username"] key and the [permanent] flag. *)
Record Session := {
  session_username : option text;
  session_permanent : bool
}.

(** What a request reads from outside the store and the session: the
    successive values of [datetime.utcnow()], numbered from 0, and the
    salt. *)
Record Env := {
  utcnow : nat -> datetime;
  salt : text
}.

(** The first reading of the clock in a request. *)
Definition clock (e : Env) : datetime := utcnow e 0.

(** State threaded through a view: how often the clock has been read, the
    committed database, the unit of work of [db.session] (what queries see
    and what [commit] publishes), whether the pending flush writes
    something the database refuses, the session and the messages flashed
    so far. *)
Record World := {
  env : Env;
  reads : nat;
  db : Store;
  uow : Store;
  doomed : bool;
  cookie : Session;
  flashed : list (Message * Category)
}.

(** Templates and the values they are rendered with. *)
Inductive Page :=
| dashboard_html (employee : option (Z * Employee))
                 (products : list (Z * Product))
                 (recent_sales : list (Z * Sale))
| login_html
| register_html
| products_html (products : list (Z * Product))
| add_product_html
| edit_product_html (product : Z * Product)
| sales_html (sales : list (Z * Sale))
| add_sale_html (products : list (Z * Product)).

Inductive Response :=
| redirect (target : Endpoint)
| render_template (page : Page)
| failed (e : Failure).

(** ** The view monad *)

Inductive Result (A : Type) :=
| Ok (a : A)
| Raise (e : Failure).
Arguments Ok {A} a.
Arguments Raise {A} e.

Definition View (A : Type) : Type := World -> Result A * World.

#[global] Instance View_ret : MRet View := fun A a w => (Ok a, w).

#[global] Instance View_bind : MBind View := fun A B k m w =>
  match m w with
  | (Ok a, w') => k a w'
  | (Raise e, w') => (Raise e, w')
  end.

Definition raise {A} (e : Failure) : View A := fun w => (Raise e, w).

Definition set_uow (f : Store -> Store) : View unit :=
  fun w => (Ok tt, {| env := env w; reads := reads w; db := db w;
                      uow := f (uow w); doomed := doomed w;
                      cookie := cookie w; flashed := flashed w |}).

Definition set_cookie (f : Session -> Session) : View unit :=
  fun w => (Ok tt, {| env := env w; reads := reads w; db := db w; uow := uow w;
                      doomed := doomed w; cookie := f (cookie w);
                      flashed := flashed w |}).

Definition flash (m : Message) (c : Category) : View unit :=
  fun w => (Ok tt, {| env := env w; reads := reads w; db := db w; uow := uow w;
                      doomed := doomed w; cookie := cookie w;
                      flashed := flashed w ++ [(m, c)] |}).

(** ** Request forms *)

Record LoginForm := {
  login_username : text;
  login_password : text
}.

Record RegisterForm := {
  form_username : text;
  form_password : text;
  form_confirm_password : text;
  form_fullname : text;
  form_position : text;
  form_email : text;
  form_phone : text
}.

Record ProductForm := {
  form_name : text;
  form_description : text;
  form_price : money;
  form_stock : Z;
  form_category : text
}.

Record SaleForm := {
  form_product_id : Z;
  form_quantity : Z
}.

(** *** Session access *)

(** ["username" in session] *)
Definition session_contains_username : View bool :=
  fun w => (Ok (bool_decide (is_Some (session_username (cookie w)))), w).

(** [session["username"]]; a missing key is a KeyError. *)
Definition session_get_username : View text :=
  fun w => match session_username (cookie w) with
           | Some u => (Ok u, w)
           | None => (Raise InternalServerError, w)
           end.

(** [session["username"] = u] *)
Definition session_set_username (u : text) : View unit :=
  set_cookie (fun c => {| session_username := Some u;
                          session_permanent := session_permanent c |}).

(** [session.permanent = True] *)
Definition session_set_permanent : View unit :=
  set_cookie (fun c => {| session_username := session_username c;
                          session_permanent := true |}).

(** [session.pop("username", None)] *)
Definition session_pop_username : View unit :=
  set_cookie (fun c => {| session_username := None;
                          session_permanent := session_permanent c |}).

(** [datetime.utcnow()]: the next reading of the clock. *)
Definition datetime_utcnow : View datetime :=
  fun w => (Ok (utcnow (env w) (reads w)),
            {| env := env w; reads := S (reads w); db := db w; uow := uow w;
               doomed := doomed w; cookie := cookie w;
               flashed := flashed w |}).

(** [price * quantity] on a float and an [int]. *)
Definition float_mul_int (p : money) (n : Z) : View money :=
  match money_mul_int p n with
  | Some x => mret x
  | None => raise InternalServerError
  end.

(** The salt [generate_password_hash] draws. *)
Definition fresh_salt : View text :=
  fun w => (Ok (salt (env w)), w).

(** *** Queries *)

(** [Model.query.all()]: the rows with their keys, in rowid order. *)
Definition by_rowid {A} (a b : Z * A) : Prop := a.1 <= b.1.

#[global] Instance by_rowid_dec {A} (a b : Z * A) : Decision (by_rowid a b).
Proof. unfold by_rowid. apply _. Defined.

Definition query_all {A} (t : gmap Z A) : list (Z * A) :=
  merge_sort by_rowid (map_to_list t).

(** [Model.query.filter_by(...).first()] *)
Definition query_first {A} (f : A -> bool) (t : gmap Z A) : option (Z * A) :=
  List.find (fun kv => f kv.2) (query_all t).

(** [Sale.query.order_by(Sale.sale_date.desc())]: newest first, and sales
    of one date in rowid order, as the engine's sorter leaves them. *)
Definition later_first (a b : Z * Sale) : Prop :=
  sale_date b.2 < sale_date a.2
  \/ (sale_date b.2 = sale_date a.2 /\ a.1 <= b.1).

#[global] Instance later_first_dec a b : Decision (later_first a b).
Proof. unfold later_first. apply _. Defined.

Definition order_by_sale_date_desc (t : gmap Z Sale) : list (Z * Sale) :=
  merge_sort later_first (query_all t).

Definition Product_query_all : View (list (Z * Product)) :=
  fun w => (Ok (query_all (product_table (uow w))), w).

(** [Product.query.get_or_404(id)], for an [id] within 64 bits, as every
    key of a stored row is.  (An [id] outside 64 bits cannot be bound to
    the query and raises OverflowError; it is not modelled, and what is
    stated of an absent [id] takes it within 64 bits.) *)
Definition Product_query_get_or_404 (id : Z) : View (Z * Product) :=
  fun w => match product_table (uow w) !! id with
           | Some p => (Ok (id, p), w)
           | None => (Raise NotFound, w)
           end.

Definition Employee_first_by_username (u : text)
  : View (option (Z * Employee)) :=
  fun w => (Ok (query_first (fun e => bool_decide (username e = u))
                            (employee_table (uow w))), w).

Definition Employee_first_by_email (m : text)
  : View (option (Z * Employee)) :=
  fun w => (Ok (query_first (fun e => bool_decide (email e = m))
                            (employee_table (uow w))), w).

Definition Sale_query_by_date_desc : View (list (Z * Sale)) :=
  fun w => (Ok (order_by_sale_date_desc (sale_table (uow w))), w).

(** *** Unit of work *)

Definition with_employees (f : gmap Z Employee -> gmap Z Employee)
  (s : Store) : Store :=
  {| employee_table := f (employee_table s);
     product_table := product_table s; sale_table := sale_table s |}.

Definition with_products (f : gmap Z Product -> gmap Z Product)
  (s : Store) : Store :=
  {| employee_table := employee_table s;
     product_table := f (product_table s); sale_table := sale_table s |}.

Definition with_sales (f : gmap Z Sale -> gmap Z Sale) (s : Store) : Store :=
  {| employee_table := employee_table s;
     product_table := product_table s; sale_table := f (sale_table s) |}.

(** [db.session.add(row)] for a new row of each model.  The INSERT binds
    every column: an [int] outside 64 bits is refused by the driver, a NaN
    becomes NULL and violates NOT NULL ([Product.price], line 41, and
    [Sale.total_price], line 52); either way the flush is refused.  The
    foreign keys of a sale are keys of stored rows. *)
Definition db_session_add_employee (e : Employee) : View unit :=
  set_uow (with_employees (fun t => <[next_id t := e]> t)).

Definition db_session_add_product (p : Product) : View unit :=
  fun w => (Ok tt,
            {| env := env w; reads := reads w; db := db w;
               uow := with_products (fun t => <[next_id t := p]> t) (uow w);
               doomed := doomed w
                         || negb (int64 (stock p)
                                  && negb (money_is_nan (price p)));
               cookie := cookie w; flashed := flashed w |}).

Definition db_session_add_sale (s : Sale) : View unit :=
  fun w => (Ok tt,
            {| env := env w; reads := reads w; db := db w;
               uow := with_sales (fun t => <[next_id t := s]> t) (uow w);
               doomed := doomed w
                         || negb (int64 (quantity s)
                                  && negb (money_is_nan (total_price s)));
               cookie := cookie w; flashed := flashed w |}).

(** Attribute assignment on a loaded employee: the row of that key is
    replaced in the unit of work. *)
Definition assign_employee (id : Z) (e : Employee) : View unit :=
  set_uow (with_employees (fun t => <[id := e]> t)).

(** [onupdate=datetime.utcnow] on [Product.updated_at] (line 45): the column
    is refreshed when the flush emits an UPDATE, that is when some assigned
    attribute differs from its loaded value. *)
Definition onupdate (changed : bool) (now : datetime) (p : Product)
  : Product :=
  {| name := name p; description := description p; price := price p;
     stock := stock p; category := category p;
     product_created_at := product_created_at p;
     updated_at := if changed then now else updated_at p |}.

(** A loaded product with [stock] assigned. *)
Definition with_stock (v : Z) (p : Product) : Product :=
  {| name := name p; description := description p; price := price p;
     stock := v; category := category p;
     product_created_at := product_created_at p;
     updated_at := updated_at p |}.

(** [product.stock = v] on a loaded product (line 219).  The flush writes
    the column, and refreshes [updated_at] from the clock, only when [v]
    differs from the loaded value; a value written must fit 64 bits. *)
Definition assign_product_stock (id : Z) (product : Product) (v : Z)
  : View unit :=
  fun w =>
    let changed := negb (bool_decide (v = stock product)) in
    (Ok tt,
     {| env := env w;
        reads := if changed then S (reads w) else reads w;
        db := db w;
        uow := with_products (fun t =>
                 <[id := onupdate changed (utcnow (env w) (reads w))
                           (with_stock v product)]> t) (uow w);
        doomed := doomed w || negb (negb changed || int64 v);
        cookie := cookie w; flashed := flashed w |}).

(** Which columns the five assignments of lines 173-177 change: those
    whose new value differs from the loaded one, for the price by the [==]
    of floats. *)
Definition price_changed (product : Product) (form : ProductForm) : bool :=
  negb (money_eqb (form_price form) (price product)).

Definition stock_changed (product : Product) (form : ProductForm) : bool :=
  negb (bool_decide (form_stock form = stock product)).

Definition form_changed (product : Product) (form : ProductForm) : bool :=
  negb (bool_decide (form_name form = name product))
  || negb (bool_decide (form_description form = description product))
  || price_changed product form
  || stock_changed product form
  || negb (bool_decide (form_category form = category product)).

(** A loaded product with the five attributes assigned; a price equal to
    the loaded one is not written, and the row keeps the loaded one. *)
Definition with_form (form : ProductForm) (p : Product) : Product :=
  {| name := form_name form;
     description := form_description form;
     price := if price_changed p form then form_price form else price p;
     stock := form_stock form;
     category := form_category form;
     product_created_at := product_created_at p;
     updated_at := updated_at p |}.

(** The five assignments of lines 173-177 on a loaded product.  The flush
    writes the columns that changed, refreshes [updated_at] from the clock
    when it writes any, and is refused for a stock outside 64 bits and for
    a NaN price. *)
Definition assign_product_form (id : Z) (product : Product)
    (form : ProductForm) : View unit :=
  fun w =>
    let changed := form_changed product form in
    (Ok tt,
     {| env := env w;
        reads := if changed then S (reads w) else reads w;
        db := db w;
        uow := with_products (fun t =>
                 <[id := onupdate changed (utcnow (env w) (reads w))
                           (with_form form product)]> t) (uow w);
        doomed := doomed w
                  || negb ((negb (stock_changed product form)
                            || int64 (form_stock form))
                           && (negb (price_changed product form)
                               || negb (money_is_nan (form_price form))));
        cookie := cookie w; flashed := flashed w |}).

(** Does some sale row reference product [id]? *)
Definition has_sales (id : Z) (t : gmap Z Sale) : bool :=
  existsb (fun kv => bool_decide (product_id kv.2 = id)) (query_all t).

(** [db.session.delete(product)].  [Product.sales] is the backref of
    [Sale.product] (line 54), a one-to-many relationship without delete
    cascade: on flush the ORM detaches the product's sales by setting their
    [product_id] to NULL before deleting the product.  [Sale.product_id] is
    declared [nullable=False] (line 49), so when the product has sales that
    UPDATE violates NOT NULL and the flush raises IntegrityError. *)
Definition db_session_delete_product (id : Z) : View unit :=
  fun w => (Ok tt,
            {| env := env w; reads := reads w; db := db w;
               uow := with_products (delete id) (uow w);
               doomed := doomed w || has_sales id (sale_table (uow w));
               cookie := cookie w; flashed := flashed w |}).

(** [db.session.commit()]: flush and publish the unit of work; a refused
    flush raises (IntegrityError or OverflowError) and leaves the database
    as it was. *)
Definition db_session_commit : View unit :=
  fun w => if doomed w
           then (Raise InternalServerError,
                 {| env := env w; reads := reads w; db := db w; uow := db w;
                    doomed := false; cookie := cookie w;
                    flashed := flashed w |})
           else (Ok tt,
                 {| env := env w; reads := reads w; db := uow w; uow := uow w;
                    doomed := false; cookie := cookie w;
                    flashed := flashed w |}).

(** ** The views *)

(** The decorator of lines 68-75. *)
Definition login_required (f : View Response) : View Response :=
  present ← session_contains_username;
  if negb present then
    flash msg_login_first error;;
    mret (redirect ep_login)
  else f.

(** Lines 77-83.  [limit(5)] keeps the first five rows. *)
Definition home : View Response :=
  login_required (
    u ← session_get_username;
    employee ← Employee_first_by_username u;
    products ← Product_query_all;
    all_sales ← Sale_query_by_date_desc;
    mret (render_template
            (dashboard_html employee products (take 5 all_sales)))).

(** Lines 85-100.  [post] is the form of a POST request, [None] for GET. *)
Definition login (post : option LoginForm) : View Response :=
  match post with
  | Some form =>
      employee ← Employee_first_by_username (login_username form);
      match employee with
      | Some (id, e) =>
          if check_password_hash (password_hash e) (login_password form) then
            session_set_username (login_username form);;
            session_set_permanent;;
            now ← datetime_utcnow;
            assign_employee id
              {| username := username e;
                 password_hash := password_hash e;
                 fullname := fullname e; position := position e;
                 email := email e; phone := phone e;
                 created_at := created_at e; last_login := Some now |};;
            db_session_commit;;
            flash msg_login_ok success;;
            mret (redirect ep_home)
          else
            flash msg_invalid_credentials error;;
            mret (render_template login_html)
      | None =>
          flash msg_invalid_credentials error;;
          mret (render_template login_html)
      end
  | None => mret (render_template login_html)
  end.

(** Lines 102-143. *)
Definition register (post : option RegisterForm) : View Response :=
  match post with
  | Some form =>
      let '(is_valid, msg) := validate_password (form_password form) in
      if negb is_valid then
        flash msg error;;
        mret (redirect ep_register)
      else if negb (bool_decide
                      (form_password form = form_confirm_password form)) then
        flash msg_password_mismatch error;;
        mret (redirect ep_register)
      else
        by_username ← Employee_first_by_username (form_username form);
        if bool_decide (is_Some by_username) then
          flash msg_username_taken error;;
          mret (redirect ep_register)
        else
          by_email ← Employee_first_by_email (form_email form);
          if bool_decide (is_Some by_email) then
            flash msg_email_taken error;;
            mret (redirect ep_register)
          else
            s ← fresh_salt;
            now ← datetime_utcnow;
            db_session_add_employee
              {| username := form_username form;
                 password_hash :=
                   generate_password_hash s (form_password form);
                 fullname := form_fullname form;
                 position := form_position form;
                 email := form_email form;
                 phone := form_phone form;
                 created_at := now;
                 last_login := None |};;
            db_session_commit;;
            flash msg_register_ok success;;
            mret (redirect ep_login)
  | None => mret (render_template register_html)
  end.

(** Lines 145-149. *)
Definition products : View Response :=
  login_required (
    products ← Product_query_all;
    mret (render_template (products_html products))).

(** Lines 151-166.  The defaults of [created_at] and [updated_at] (lines
    44-45) each read the clock. *)
Definition add_product (post : option ProductForm) : View Response :=
  login_required (
    match post with
    | Some form =>
        created ← datetime_utcnow;
        updated ← datetime_utcnow;
        db_session_add_product
          {| name := form_name form;
             description := form_description form;
             price := form_price form;
             stock := form_stock form;
             category := form_category form;
             product_created_at := created;
             updated_at := updated |};;
        db_session_commit;;
        flash msg_product_added success;;
        mret (redirect ep_products)
    | None => mret (render_template add_product_html)
    end).

(** Lines 168-181. *)
Definition edit_product (id : Z) (post : option ProductForm)
  : View Response :=
  login_required (
    '(id, product) ← Product_query_get_or_404 id;
    match post with
    | Some form =>
        assign_product_form id product form;;
        db_session_commit;;
        flash msg_product_updated success;;
        mret (redirect ep_products)
    | None => mret (render_template (edit_product_html (id, product)))
    end).

(** Lines 183-190. *)
Definition delete_product (id : Z) : View Response :=
  login_required (
    '(id, _) ← Product_query_get_or_404 id;
    db_session_delete_product id;;
    db_session_commit;;
    flash msg_product_deleted success;;
    mret (redirect ep_products)).

(** Lines 192-196. *)
Definition sales : View Response :=
  login_required (
    sales ← Sale_query_by_date_desc;
    mret (render_template (sales_html sales))).

(** Lines 198-226.  The product of line 211 may raise OverflowError;
    [employee.id] on a missing employee is an AttributeError; both come
    after the stock check and before any write.  The flush updates the
    product, then inserts the sale, whose [sale_date] default reads the
    clock. *)
Definition add_sale (post : option SaleForm) : View Response :=
  login_required (
    match post with
    | Some form =>
        let product_id := form_product_id form in
        let quantity := form_quantity form in
        '(_, product) ← Product_query_get_or_404 product_id;
        u ← session_get_username;
        employee ← Employee_first_by_username u;
        if bool_decide (stock product < quantity) then
          flash msg_insufficient_stock error;;
          mret (redirect ep_add_sale)
        else
          total_price ← float_mul_int (price product) quantity;
          match employee with
          | None => raise InternalServerError
          | Some (employee_id, _) =>
              assign_product_stock product_id product
                (stock product - quantity);;
              now ← datetime_utcnow;
              db_session_add_sale
                {| product_id := product_id;
                   employee_id := employee_id;
                   quantity := quantity;
                   total_price := total_price;
                   sale_date := now |};;
              db_session_commit;;
              flash msg_sale_recorded success;;
              mret (redirect ep_sales)
          end
    | None =>
        products ← Product_query_all;
        mret (render_template (add_sale_html products))
    end).

(** Lines 228-232. *)
Definition logout : View Response :=
  session_pop_username;;
  flash msg_logout_ok success;;
  mret (redirect ep_login).

(** ** Requests and their outcome *)

(** The URL map of the [@app.route] decorators, with the method and the
    [<int:id>] argument. *)
Inductive Request :=
| GET_home
| GET_login
| POST_login (form : LoginForm)
| GET_register
| POST_register (form : RegisterForm)
| GET_products
| GET_add_product
| POST_add_product (form : ProductForm)
| GET_edit_product (id : Z)
| POST_edit_product (id : Z) (form : ProductForm)
| GET_delete_product (id : Z)
| GET_sales
| GET_add_sale
| POST_add_sale (form : SaleForm)
| GET_logout.

Definition dispatch (r : Request) : View Response :=
  match r with
  | GET_home => home
  | GET_login => login None
  | POST_login form => login (Some form)
  | GET_register => register None
  | POST_register form => register (Some form)
  | GET_products => products
  | GET_add_product => add_product None
  | POST_add_product form => add_product (Some form)
  | GET_edit_product id => edit_product id None
  | POST_edit_product id form => edit_product id (Some form)
  | GET_delete_product id => delete_product id
  | GET_sales => sales
  | GET_add_sale => add_sale None
  | POST_add_sale form => add_sale (Some form)
  | GET_logout => logout
  end.

Definition endpoint (r : Request) : Endpoint :=
  match r with
  | GET_home => ep_home
  | GET_login | POST_login _ => ep_login
  | GET_register | POST_register _ => ep_register
  | GET_products => ep_products
  | GET_add_product | POST_add_product _ => ep_add_product
  | GET_edit_product _ | POST_edit_product _ _ => ep_edit_product
  | GET_delete_product _ => ep_delete_product
  | GET_sales => ep_sales
  | GET_add_sale | POST_add_sale _ => ep_add_sale
  | GET_logout => ep_logout
  end.

(** The views decorated with [@login_required]. *)
Definition protected (e : Endpoint) : bool :=
  match e with
  | ep_home | ep_products | ep_add_product | ep_edit_product
  | ep_delete_product | ep_sales | ep_add_sale => true
  | ep_login | ep_register | ep_logout => false
  end.

(** What one request leaves behind: the response, the messages flashed,
    the session and the committed database. *)
Record Outcome := {
  response : Response;
  flashes : list (Message * Category);
  session : Session;
  store : Store
}.

Definition run (v : View Response) (e : Env) (c : Session) (s : Store)
  : Outcome :=
  let '(r, w) := v {| env := e; reads := 0; db := s; uow := s;
                      doomed := false; cookie := c; flashed := [] |} in
  {| response := match r with
                 | Ok resp => resp
                 | Raise err => failed err
                 end;
     flashes := flashed w;
     session := cookie w;
     store := db w |}.

Definition handle (r : Request) : Env -> Session -> Store -> Outcome :=
  run (dispatch r).

End Application.

(** The tables, pages and requests name the carrier of their prices. *)
Arguments Product money : clear implicits.
Arguments Sale money : clear implicits.
Arguments Store money : clear implicits.
Arguments World money : clear implicits.
Arguments Page money : clear implicits.
Arguments Response money : clear implicits.
Arguments View money A : clear implicits.
Arguments ProductForm money : clear implicits.
Arguments Request money : clear implicits.
Arguments Outcome money : clear implicits.

(** ** Vocabulary of the specification *)

(** A password has a character of the class [lo-hi]. *)
Definition has_char_in (lo hi : N) (password : text) : Prop :=
  exists c : N, c ∈ password /\ (lo <= c <= hi)%N.

Definition has_lowercase : text -> Prop := has_char_in lower_a lower_z.
Definition has_uppercase : text -> Prop := has_char_in upper_A upper_Z.
Definition has_digit : text -> Prop := has_char_in digit_0 digit_9.

(** The complexity policy of the specification: at least 8 characters, a
    lowercase letter, an uppercase letter and a digit. *)
Definition weak (password : text) : Prop :=
  (length password < 8)%nat \/ ~ has_lowercase password \/
  ~ has_uppercase password \/ ~ has_digit password.

(** The message of the first criterion a password misses, the criteria
    taken in the order length, lowercase, uppercase, digit. *)
Inductive first_missing (password : text) : Message -> Prop :=
| missing_length :
    (length password < 8)%nat ->
    first_missing password msg_password_too_short
| missing_lowercase :
    (8 <= length password)%nat -> ~ has_lowercase password ->
    first_missing password msg_password_no_lowercase
| missing_uppercase :
    (8 <= length password)%nat -> has_lowercase password ->
    ~ has_uppercase password ->
    first_missing password msg_password_no_uppercase
| missing_digit :
    (8 <= length password)%nat -> has_lowercase password ->
    has_uppercase password -> ~ has_digit password ->
    first_missing password msg_password_no_digit.

Definition policy_message (m : Message) : Prop :=
  m = msg_password_too_short \/ m = msg_password_no_lowercase \/
  m = msg_password_no_uppercase \/ m = msg_password_no_digit.

(** The UNIQUE constraints on [Employee.username] and [Employee.email]
    (lines 22 and 26). *)
Definition unique_credentials (t : gmap Z Employee) : Prop :=
  map_Forall (fun k1 e1 =>
    map_Forall (fun k2 e2 =>
      username e1 = username e2 \/ email e1 = email e2 -> k1 = k2) t) t.

(** The product row after [q] units of it are sold at instant [now]. *)
Definition sold {money} (q : Z) (now : Z) (p : Product money)
  : Product money :=
  onupdate (negb (bool_decide (q = 0))) now
    {| name := name p; description := description p; price := price p;
       stock := stock p - q; category := category p;
       product_created_at := product_created_at p;
       updated_at := updated_at p |}.

(** The employee row after a login at instant [now]. *)
Definition logged_in (now : Z) (e : Employee) : Employee :=
  {| username := username e; password_hash := password_hash e;
     fullname := fullname e; position := position e; email := email e;
     phone := phone e; created_at := created_at e;
     last_login := Some now |}.

(** The catalog listing: the ids of the products the [/products] page
    shows in response to a logged-in request. *)
Definition listed `{Platform money} (ev : Env) (c : Session)
    (st : Store money) : list Z :=
  match response (handle GET_products ev c st) with
  | render_template (products_html rows) => rows.*1
  | _ => []
  end.

(** The requests that record a sale: a POST to [/sale/add]. *)
Definition records_sale {money} (r : Request money) : bool :=
  match r with
  | POST_add_sale _ => true
  | _ => false
  end.

(** The outcome of a rejected login. *)
Definition login_rejected {money} (c : Session) (st : Store money)
  : Outcome money :=
  {| response := render_template login_html;
     flashes := [(msg_invalid_credentials, error)];
     session := c;
     store := st |}.

(** The outcome of a registration rejected with message [m]. *)
Definition register_rejected {money} (m : Message) (c : Session)
    (st : Store money) : Outcome money :=
  {| response := redirect ep_register;
     flashes := [(m, error)];
     session := c;
     store := st |}.

(** ** Vocabulary for the whole application *)

(** Two employee rows that differ at most in [last_login]. *)
Definition same_account (e e' : Employee) : Prop :=
  username e' = username e /\ password_hash e' = password_hash e /\
  fullname e' = fullname e /\ position e' = position e /\
  email e' = email e /\ phone e' = phone e /\
  created_at e' = created_at e.

(** The ways a request can change the database. *)
Inductive effect {money} (st : Store money) : Store money -> Prop :=
| effect_none :
    effect st st
| effect_register (e : Employee) :
    map_Forall (fun _ e' => username e' <> username e) (employee_table st) ->
    map_Forall (fun _ e' => email e' <> email e) (employee_table st) ->
    effect st (with_employees (fun t => <[next_id t := e]> t) st)
| effect_login (k : Z) (e : Employee) (now : Z) :
    employee_table st !! k = Some e ->
    effect st (with_employees (fun t => <[k := logged_in now e]> t) st)
| effect_add_product (p : Product money) :
    effect st (with_products (fun t => <[next_id t := p]> t) st)
| effect_edit_product (id : Z) (p p' : Product money) :
    product_table st !! id = Some p ->
    product_created_at p' = product_created_at p ->
    effect st (with_products (fun t => <[id := p']> t) st)
| effect_delete_product (id : Z) (p : Product money) :
    product_table st !! id = Some p ->
    has_sales id (sale_table st) = false ->
    effect st (with_products (delete id) st)
| effect_sale (id : Z) (p : Product money) (s : Sale money) (now : Z) :
    product_table st !! id = Some p ->
    product_id s = id ->
    quantity s <= stock p ->
    effect st (with_sales (fun t => <[next_id t := s]> t)
                 (with_products
                    (fun t => <[id := sold (quantity s) now p]> t) st)).

(** Requests served one after the other, each with its own clock and
    session cookie, on the database the previous one left. *)
Definition serve `{Platform money}
    (rs : list (Request money * Env * Session)) (st : Store money)
  : Store money :=
  foldl (fun st '(r, ev, c) => store (handle r ev c st)) st rs.

(** The requests that only show a page. *)
Definition shows_page {money} (r : Request money) : bool :=
  match r with
  | GET_home | GET_login | GET_register | GET_products | GET_add_product
  | GET_edit_product _ | GET_sales | GET_add_sale => true
  | _ => false
  end.

(** The requests that leave the session cookie alone: all but a posted
    login and a logout. *)
Definition keeps_session {money} (r : Request money) : bool :=
  match r with
  | POST_login _ | GET_logout => false
  | _ => true
  end.

(** No product has a negative stock. *)
Definition stock_nonnegative {money} (t : gmap Z (Product money)) : Prop :=
  map_Forall (fun _ p => 0 <= stock p) t.

(** The employee row [register] inserts. *)
Definition registered `{Platform money} (form : RegisterForm) (ev : Env)
  : Employee :=
  {| username := form_username form;
     password_hash := generate_password_hash (salt ev) (form_password form);
     fullname := form_fullname form;
     position := form_position form;
     email := form_email form;
     phone := form_phone form;
     created_at := clock ev;
     last_login := None |}.

(** The product row [add_product] inserts, with the two readings of the
    clock. *)
Definition entered {money} (form : ProductForm money) (created updated : Z)
  : Product money :=
  {| name := form_name form;
     description := form_description form;
     price := form_price form;
     stock := form_stock form;
     category := form_category form;
     product_created_at := created;
     updated_at := updated |}.



(** ** A concrete shop, for evaluating the views *)

Module Shop.

(** IEEE 754 binary64 prices; the hashing functions are stand-ins that
    keep the password readable, enough to run the views. *)
#[export] Instance ieee754 : Platform spec_float := {|
  money_mul_int p q :=
    match binary_normalize 53 1024 q 0 false with
    | S754_infinity _ => None
    | x => Some (SFmul 53 1024 p x)
    end;
  money_eqb := SFeqb;
  money_is_nan x := match x with S754_nan => true | _ => false end;
  generate_password_hash s p := s ++ 36%N :: p;
  check_password_hash h p :=
    bool_decide (drop (length h - length p) h = p)
|}.

Definition baht (n : Z) : spec_float := binary_normalize 53 1024 n 0 false.

Definition ann : Employee := {|
  username := str "ann";
  password_hash := generate_password_hash (str "s1") (str "Passw0rd");
  fullname := str "Ann Lee";
  position := str "clerk";
  email := str "ann@shop.test";
  phone := str "0812345678";
  created_at := 10;
  last_login := None
|}.

Definition bob : Employee := {|
  username := str "bob";
  password_hash := generate_password_hash (str "s2") (str "Secret99x");
  fullname := str "Bob Ray";
  position := str "manager";
  email := str "bob@shop.test";
  phone := str "0898765432";
  created_at := 11;
  last_login := Some 40
|}.

Definition mouse : Product spec_float := {|
  name := str "mouse";
  description := str "usb mouse";
  price := baht 250;
  stock := 10;
  category := str "input";
  product_created_at := 20;
  updated_at := 20
|}.

Definition cable : Product spec_float := {|
  name := str "cable";
  description := str "hdmi cable";
  price := baht 120;
  stock := 4;
  category := str "video";
  product_created_at := 21;
  updated_at := 21
|}.

Definition sold_mice : Sale spec_float := {|
  product_id := 1;
  employee_id := 1;
  quantity := 2;
  total_price := baht 500;
  sale_date := 30
|}.

(** Two employees, two products, one sale of product 1. *)
Definition shop : Store spec_float := {|
  employee_table := <[2 := bob]> {[1 := ann]};
  product_table := <[2 := cable]> {[1 := mouse]};
  sale_table := {[1 := sold_mice]}
|}.

Definition noon : Env :=
  {| utcnow := fun n => 100 + Z.of_nat n; salt := str "s3" |}.

Definition as_ann : Session :=
  {| session_username := Some (str "ann"); session_permanent := true |}.

Definition anonymous : Session :=
  {| session_username := None; session_permanent := false |}.

(** A registration form for a new employee, with a chosen username, email
    and password. *)
Definition signup (u m pw : string) : RegisterForm := {|
  form_username := str u;
  form_password := str pw;
  form_confirm_password := str pw;
  form_fullname := str "Cy Doe";
  form_position := str "clerk";
  form_email := str m;
  form_phone := str "0800000000"
|}.

End Shop.

(** ** More concrete requests *)

Module Scenes.

Import Shop.

(** A session whose username belongs to no employee of [shop]. *)
Definition as_zed : Session :=
  {| session_username := Some (str "zed"); session_permanent := true |}.

(** A form for a new product, with a negative stock. *)
Definition keyboard_form : ProductForm spec_float := {|
  form_name := str "keyboard";
  form_description := str "usb keyboard";
  form_price := baht 890;
  form_stock := -3;
  form_category := str "input"
|}.

Definition login_ann : LoginForm :=
  {| login_username := str "ann"; login_password := str "Passw0rd" |}.

(** A form whose price field reads [inf], which [float] accepts. *)
Definition gold_form : ProductForm spec_float := {|
  form_name := str "gold";
  form_description := str "gold bar";
  form_price := S754_infinity false;
  form_stock := 1;
  form_category := str "metal"
|}.

Definition evening : Env :=
  {| utcnow := fun n => 200 + Z.of_nat n; salt := str "s4" |}.

(** [shop] after Ann has added the gold bar. *)
Definition shop_with_gold : Store spec_float :=
  store (handle (POST_add_product gold_form) noon as_ann shop).

(** A day at the shop: Ann tries to delete the mouse, logs in, a new
    employee registers, and Ann sells three mice and deletes the cable. *)
Definition day : list (Request spec_float * Env * Session) :=
  [ (GET_delete_product 1, noon, as_ann);
    (POST_login login_ann, noon, anonymous);
    (POST_register (signup "cy" "cy@shop.test" "Passw0rd"), noon, anonymous);
    (POST_add_sale {| form_product_id := 1; form_quantity := 3 |},
     evening, as_ann);
    (GET_delete_product 2, evening, as_ann) ].

End Scenes.

(** ** Keys and queries *)

Lemma max_key_bound {A} (t : gmap Z A) (k : Z) (a : A) :
  t !! k = Some a -> k <= max_key t.
Proof.
  intros Hk. apply elem_of_map_to_list in Hk. unfold max_key.
  induction (map_to_list t) as [|[k' a'] l IH]; simpl.
  - inversion Hk.
  - apply elem_of_cons in Hk as [Heq | Hin].
    + inversion Heq; subst. lia.
    + specialize (IH Hin). lia.
Qed.

(** The key the engine assigns is not in use. *)
Lemma next_id_fresh {A} (t : gmap Z A) : t !! next_id t = None.
Proof.
  destruct (t !! next_id t) as [a|] eqn:E; [|done].
  apply max_key_bound in E. unfold next_id in E. lia.
Qed.

Lemma query_all_Permutation {A} (t : gmap Z A) :
  query_all t ≡ₚ map_to_list t.
Proof. apply merge_sort_Permutation. Qed.

(** The rows a query returns are the rows of the table. *)
Lemma elem_of_query_all {A} (t : gmap Z A) (k : Z) (a : A) :
  (k, a) ∈ query_all t <-> t !! k = Some a.
Proof. rewrite query_all_Permutation. apply elem_of_map_to_list. Qed.

Lemma query_first_Some {A} (f : A -> bool) (t : gmap Z A) (k : Z) (a : A) :
  query_first f t = Some (k, a) -> t !! k = Some a /\ f a = true.
Proof.
  unfold query_first. intros Hf.
  apply find_some in Hf as [Hin Hfa]. split; [|done].
  apply elem_of_query_all. by apply list_elem_of_In.
Qed.

Lemma query_first_None {A} (f : A -> bool) (t : gmap Z A) :
  query_first f t = None -> forall k a, t !! k = Some a -> f a = false.
Proof.
  unfold query_first. intros Hf k a Hk.
  apply elem_of_query_all, list_elem_of_In in Hk.
  by apply (find_none _ _ Hf) in Hk.
Qed.

(** A row that passes the filter makes [first()] return a row. *)
Lemma query_first_exists {A} (f : A -> bool) (t : gmap Z A) (k : Z) (a : A) :
  t !! k = Some a -> f a = true ->
  exists k' a', query_first f t = Some (k', a').
Proof.
  intros Hk Hf. destruct (query_first f t) as [[k' a']|] eqn:E; [eauto|].
  rewrite (query_first_None _ _ E _ _ Hk) in Hf. discriminate.
Qed.

(** Under uniqueness of the filtered column, [first()] is that row. *)
Lemma query_first_unique {A} (f : A -> bool) (t : gmap Z A) (k : Z) (a : A) :
  t !! k = Some a -> f a = true ->
  map_Forall (fun k' a' => f a' = true -> k' = k) t ->
  query_first f t = Some (k, a).
Proof.
  intros Hk Hf Huniq.
  destruct (query_first_exists f t k a Hk Hf) as (k' & a' & E).
  destruct (query_first_Some _ _ _ _ E) as [Hk' Hf'].
  pose proof (Huniq _ _ Hk' Hf') as ->. congruence.
Qed.

(** ** The password policy *)

Lemma re_search_class_spec (lo hi : N) (s : text) :
  re_search_class lo hi s = true <-> has_char_in lo hi s.
Proof.
  unfold re_search_class, has_char_in, in_range.
  rewrite existsb_exists. split.
  - intros (c & Hin & Hc). exists c. apply list_elem_of_In in Hin.
    apply andb_prop in Hc as [Hlo Hhi].
    apply N.leb_le in Hlo, Hhi. done.
  - intros (c & Hin & Hlo & Hhi). exists c. apply list_elem_of_In in Hin.
    split; [done|]. apply andb_true_intro.
    split; by apply N.leb_le.
Qed.

Lemma re_search_class_false (lo hi : N) (s : text) :
  re_search_class lo hi s = false <-> ~ has_char_in lo hi s.
Proof.
  rewrite <- re_search_class_spec. by destruct (re_search_class lo hi s).
Qed.

(** [validate_password] decides the policy and names the first criterion
    missed. *)
Lemma validate_password_spec (password : text) :
  (weak password /\ (validate_password password).1 = false /\
   first_missing password (validate_password password).2) \/
  (~ weak password /\ validate_password password = (true, msg_password_safe)).
Proof.
  unfold validate_password, weak, has_lowercase, has_uppercase, has_digit.
  destruct (Nat.ltb_spec (length password) 8) as [Hlen | Hlen].
  { left. split; [by left|]. split; [done|]. by constructor. }
  destruct (re_search_class lower_a lower_z password) eqn:Hlow; cbn.
  2: { apply re_search_class_false in Hlow. left.
       split; [by right; left|]. split; [done|]. by constructor. }
  apply re_search_class_spec in Hlow.
  destruct (re_search_class upper_A upper_Z password) eqn:Hup; cbn.
  2: { apply re_search_class_false in Hup. left.
       split; [by right; right; left|]. split; [done|]. by constructor. }
  apply re_search_class_spec in Hup.
  destruct (re_search_class digit_0 digit_9 password) eqn:Hdig; cbn.
  2: { apply re_search_class_false in Hdig. left.
       split; [by right; right; right|]. split; [done|]. by constructor. }
  apply re_search_class_spec in Hdig.
  right. split; [|done]. intros [?|[?|[?|?]]]; [lia | done..].
Qed.

Lemma first_missing_policy (password : text) (m : Message) :
  first_missing password m -> policy_message m.
Proof. unfold policy_message. destruct 1; tauto. Qed.

(** ** Running a view *)

Ltac run_view :=
  unfold handle, dispatch, run, home, login, register, products,
    add_product, edit_product, delete_product, sales, add_sale, logout,
    login_required;
  unfold session_contains_username, session_get_username,
    session_set_username, session_set_permanent, session_pop_username,
    datetime_utcnow, float_mul_int, fresh_salt, Product_query_all,
    Product_query_get_or_404, Employee_first_by_username,
    Employee_first_by_email, Sale_query_by_date_desc,
    db_session_add_employee, db_session_add_product, db_session_add_sale,
    assign_employee, assign_product_stock, assign_product_form,
    db_session_delete_product, db_session_commit, flash,
    set_uow, set_cookie, raise, mbind, mret, View_bind, View_ret;
  cbn.

(** Case analysis on what the control flow of a view waits for: a match
    whose scrutinee is itself a match. *)
Ltac focus_on x :=
  lazymatch x with
  | context [match ?y with _ => _ end] => focus_on y
  | _ => destruct x eqn:?
  end.

Ltac step_view :=
  match goal with
  | |- context [match (match ?x with _ => _ end) with _ => _ end] =>
      focus_on x
  | |- context [match (match ?x with _ => _ end) _ with _ => _ end] =>
      focus_on x
  end; cbn.

Ltac run_cases := run_view; repeat step_view.

Section Properties.

Context {money : Type} `{Platform money}.

(** *** Recording a sale *)

(** The outcome of a sale that passes the stock check and that the
    database accepts. *)
Lemma add_sale_accepted (ev : Env) (c : Session) (st : Store money) (u : text)
    (pid q eid : Z) (p : Product money) (e : Employee) (total : money) :
  session_username c = Some u ->
  product_table st !! pid = Some p ->
  query_first (fun e => bool_decide (username e = u)) (employee_table st)
    = Some (eid, e) ->
  q <= stock p ->
  int64 q = true ->
  int64 (stock p - q) = true ->
  money_mul_int (price p) q = Some total ->
  money_is_nan total = false ->
  handle (POST_add_sale {| form_product_id := pid; form_quantity := q |})
         ev c st
  = {| response := redirect ep_sales;
       flashes := [(msg_sale_recorded, success)];
       session := c;
       store :=
         {| employee_table := employee_table st;
            product_table := <[pid := sold q (clock ev) p]> (product_table st);
            sale_table := <[next_id (sale_table st) :=
                         {| product_id := pid; employee_id := eid;
                            quantity := q;
                            total_price := total;
                            sale_date :=
                              utcnow ev (if bool_decide (q = 0)
                                         then 0%nat else 1%nat) |}]>
                            (sale_table st) |} |}.
Proof.
  intros Hu Hp He Hq Hq64 Hs64 Hmul Hnan.
  destruct c as [cu cp]; simpl in Hu; subst cu.
  run_view. rewrite Hp. cbn. rewrite He. cbn.
  rewrite bool_decide_eq_false_2 by lia. rewrite Hmul. cbn.
  unfold sold, clock.
  rewrite (bool_decide_ext (stock p - q = stock p) (q = 0)) by lia.
  destruct (bool_decide (q = 0)); cbn; rewrite ?Hs64, Hq64, Hnan; reflexivity.
Qed.

(** C1: when the product exists, the logged-in employee exists, the stock
    covers the quantity, the quantity and the stock that results fit the
    64 bits of an INTEGER, and [price * quantity] is defined and not NaN,
    [add_sale] creates exactly one new sale row, with the requested
    quantity and [total_price = price * quantity], attributed to the
    logged-in employee; it lowers that product's stock by exactly the
    quantity and leaves every other product, every existing sale and the
    employees unchanged. *)
Theorem add_sale_creates_one_sale (ev : Env) (c : Session) (st : Store money)
    (u : text) (pid q k : Z) (p : Product money) (e : Employee)
    (total : money) :
  session_username c = Some u ->
  product_table st !! pid = Some p ->
  employee_table st !! k = Some e ->
  username e = u ->
  q <= stock p ->
  int64 q = true ->
  int64 (stock p - q) = true ->
  money_mul_int (price p) q = Some total ->
  money_is_nan total = false ->
  let o := handle (POST_add_sale {| form_product_id := pid;
                                    form_quantity := q |}) ev c st in
  response o = redirect ep_sales /\
  flashes o = [(msg_sale_recorded, success)] /\
  (exists sid s,
      sale_table st !! sid = None /\
      sale_table (store o) = <[sid := s]> (sale_table st) /\
      product_id s = pid /\
      quantity s = q /\
      total_price s = total /\
      exists e',
        employee_table st !! employee_id s = Some e' /\ username e' = u) /\
  size (sale_table (store o)) = S (size (sale_table st)) /\
  (forall i s, sale_table st !! i = Some s ->
               sale_table (store o) !! i = Some s) /\
  (exists p',
      product_table (store o) !! pid = Some p' /\
      stock p' = stock p - q /\
      name p' = name p /\ description p' = description p /\
      price p' = price p /\ category p' = category p /\
      product_created_at p' = product_created_at p) /\
  (forall i, i <> pid ->
             product_table (store o) !! i = product_table st !! i) /\
  employee_table (store o) = employee_table st.
Proof.
  intros Hu Hp Hk He Hq Hq64 Hs64 Hmul Hnan o.
  destruct (query_first_exists (fun e => bool_decide (username e = u))
              (employee_table st) k e Hk) as (eid & e' & Hfirst).
  { by apply bool_decide_eq_true_2. }
  destruct (query_first_Some _ _ _ _ Hfirst) as [Hin Hname].
  apply bool_decide_eq_true_1 in Hname.
  subst o.
  rewrite (add_sale_accepted ev c st u pid q eid p e' total) by done.
  cbn. pose proof (next_id_fresh (sale_table st)) as Hfresh.
  repeat split; try done.
  - eexists _, _. split; [exact Hfresh|]. split; [reflexivity|].
    cbn. repeat split; try done. by exists e'.
  - by apply map_size_insert_None.
  - intros i s Hi. rewrite lookup_insert_ne; [done|]. congruence.
  - exists (sold q (clock ev) p). rewrite lookup_insert_eq. by cbn.
  - intros i Hi. by rewrite lookup_insert_ne.
Qed.

(** C10: [add_sale] has no lower bound at zero on the quantity.  For a
    quantity [q <= 0] not above the stock, from the session of an existing
    employee, with [q] and the stock that results within the 64 bits of an
    INTEGER and [price * q] defined and not NaN, the check passes, a sale
    row of quantity [q] and total [price * q] is committed, and the
    product's stock grows by [|q|]. *)
Theorem add_sale_nonpositive_quantity (ev : Env) (c : Session)
    (st : Store money) (u : text) (pid q k : Z) (p : Product money)
    (e : Employee) (total : money) :
  session_username c = Some u ->
  product_table st !! pid = Some p ->
  employee_table st !! k = Some e ->
  username e = u ->
  q <= 0 ->
  q <= stock p ->
  int64 q = true ->
  int64 (stock p - q) = true ->
  money_mul_int (price p) q = Some total ->
  money_is_nan total = false ->
  let o := handle (POST_add_sale {| form_product_id := pid;
                                    form_quantity := q |}) ev c st in
  response o = redirect ep_sales /\
  flashes o = [(msg_sale_recorded, success)] /\
  (exists s,
      sale_table st !! next_id (sale_table st) = None /\
      sale_table (store o) !! next_id (sale_table st) = Some s /\
      product_id s = pid /\
      quantity s = q /\ quantity s <= 0 /\
      total_price s = total) /\
  (exists p',
      product_table (store o) !! pid = Some p' /\
      stock p' = stock p + Z.abs q /\
      stock p <= stock p').
Proof.
  intros Hu Hp Hk He Hq0 Hq Hq64 Hs64 Hmul Hnan o.
  destruct (query_first_exists (fun e => bool_decide (username e = u))
              (employee_table st) k e Hk) as (eid & e' & Hfirst).
  { by apply bool_decide_eq_true_2. }
  subst o.
  rewrite (add_sale_accepted ev c st u pid q eid p e' total) by done.
  cbn. split; [done|]. split; [done|]. split.
  - eexists. split; [apply next_id_fresh|].
    rewrite lookup_insert_eq. by cbn.
  - exists (sold q (clock ev) p). rewrite lookup_insert_eq. cbn.
    split; [done|]. lia.
Qed.

(** C2: when the product exists and its stock is below the quantity,
    [add_sale] flashes the insufficient-stock message and commits nothing:
    the store, hence the stock and the sale rows, is the one it started
    from. *)
Theorem add_sale_insufficient_stock (ev : Env) (c : Session) (st : Store money)
    (u : text) (pid q : Z) (p : Product money) :
  session_username c = Some u ->
  product_table st !! pid = Some p ->
  stock p < q ->
  handle (POST_add_sale {| form_product_id := pid; form_quantity := q |})
         ev c st
  = {| response := redirect ep_add_sale;
       flashes := [(msg_insufficient_stock, error)];
       session := c;
       store := st |}.
Proof.
  intros Hu Hp Hq. destruct c as [cu cp]; simpl in Hu; subst cu.
  run_view. rewrite Hp. cbn.
  by rewrite bool_decide_eq_true_2 by lia.
Qed.

(** *** Deleting a product *)

(** A product no sale refers to is deleted. *)
Lemma delete_product_without_sales (ev : Env) (c : Session) (st : Store money)
    (u : text) (pid : Z) (p : Product money) :
  session_username c = Some u ->
  product_table st !! pid = Some p ->
  has_sales pid (sale_table st) = false ->
  handle (GET_delete_product pid) ev c st
  = {| response := redirect ep_products;
       flashes := [(msg_product_deleted, success)];
       session := c;
       store := {| employee_table := employee_table st;
                   product_table := delete pid (product_table st);
                   sale_table := sale_table st |} |}.
Proof.
  intros Hu Hp Hs. destruct c as [cu cp]; simpl in Hu; subst cu.
  run_view. rewrite Hp. cbn. rewrite Hs. reflexivity.
Qed.

(** A product some sale refers to is not: the commit raises and the
    database stays as it was. *)
Lemma delete_product_with_sales (ev : Env) (c : Session) (st : Store money)
    (u : text) (pid : Z) (p : Product money) :
  session_username c = Some u ->
  product_table st !! pid = Some p ->
  has_sales pid (sale_table st) = true ->
  handle (GET_delete_product pid) ev c st
  = {| response := failed InternalServerError;
       flashes := [];
       session := c;
       store := st |}.
Proof.
  intros Hu Hp Hs. destruct c as [cu cp]; simpl in Hu; subst cu.
  run_view. rewrite Hp. cbn. rewrite Hs. reflexivity.
Qed.

Lemma listed_spec (ev : Env) (c : Session) (st : Store money) (u : text) :
  session_username c = Some u ->
  listed ev c st = (query_all (product_table st)).*1.
Proof.
  intros Hu. destruct c as [cu cp]; simpl in Hu; subst cu. reflexivity.
Qed.

(** After the deletion of a product without sales the listing no longer
    shows it, and shows every other product it showed. *)
Lemma delete_product_unlists (ev ev' : Env) (c : Session) (st : Store money)
    (u : text) (pid : Z) (p : Product money) :
  session_username c = Some u ->
  product_table st !! pid = Some p ->
  has_sales pid (sale_table st) = false ->
  let st' := store (handle (GET_delete_product pid) ev c st) in
  (pid ∉ listed ev' c st') /\
  forall i, i <> pid -> i ∈ listed ev c st -> i ∈ listed ev' c st'.
Proof.
  intros Hu Hp Hs st'. subst st'.
  rewrite (delete_product_without_sales ev c st u pid p) by done. cbn.
  rewrite !(listed_spec _ c _ u) by done. cbn. split.
  - intros Hin. apply list_elem_of_fmap in Hin as ([i x] & -> & Hin).
    apply elem_of_query_all in Hin. cbn in Hin.
    by rewrite lookup_delete_eq in Hin.
  - intros i Hi Hin. apply list_elem_of_fmap in Hin as ([j x] & -> & Hin).
    apply elem_of_query_all in Hin. cbn in *.
    apply list_elem_of_fmap. exists (j, x). split; [done|].
    apply elem_of_query_all. by rewrite lookup_delete_ne.
Qed.

(** *** The access gate *)

(** C8: a request to a protected route whose session holds no username is
    answered by a redirect to the login page with the login-first notice;
    the answer is the same whatever the store holds, and the store and the
    session are returned untouched. *)
Theorem protected_route_requires_login (r : Request money) (ev : Env)
    (c : Session) (st : Store money) :
  protected (endpoint r) = true ->
  session_username c = None ->
  handle r ev c st
  = {| response := redirect ep_login;
       flashes := [(msg_login_first, error)];
       session := c;
       store := st |} /\
  forall st' : Store money,
    response (handle r ev c st') = response (handle r ev c st) /\
    flashes (handle r ev c st') = flashes (handle r ev c st) /\
    session (handle r ev c st') = session (handle r ev c st) /\
    store (handle r ev c st') = st'.
Proof.
  intros Hr Hc. destruct c as [cu cp]; simpl in Hc; subst cu.
  destruct r; try discriminate Hr; split; try intros st'; done.
Qed.

(** *** Sale rows are never rewritten *)

(** Every view returns the sale table it found, a posted sale possibly
    extended by the row of a fresh key. *)
Lemma sales_after (r : Request money) (ev : Env) (c : Session)
    (st : Store money) :
  sale_table (store (handle r ev c st)) = sale_table st \/
  records_sale r = true /\
  exists s : Sale money, sale_table (store (handle r ev c st))
            = <[next_id (sale_table st) := s]> (sale_table st).
Proof.
  destruct c as [[u|] cp], r; run_cases;
    first [by left | by right; eauto].
Qed.

(** C9: sale rows are immutable.  Every request other than a posted sale
    leaves the sale table exactly as it was, and no request at all removes
    an existing sale row or changes one of its fields. *)
Theorem sale_rows_immutable (r : Request money) (ev : Env) (c : Session)
    (st : Store money) :
  (records_sale r = false ->
   sale_table (store (handle r ev c st)) = sale_table st) /\
  (forall i s, sale_table st !! i = Some s ->
               sale_table (store (handle r ev c st)) !! i = Some s).
Proof.
  destruct (sales_after r ev c st) as [Heq | (Hr & s & Heq)]; rewrite Heq.
  - done.
  - split; [by rewrite Hr|]. intros i s' Hi.
    rewrite lookup_insert_ne; [done|].
    pose proof (next_id_fresh (sale_table st)). congruence.
Qed.

(** *** Login *)

Lemma login_unknown_username (ev : Env) (c : Session) (st : Store money)
    (form : LoginForm) :
  map_Forall (fun _ e => username e <> login_username form)
    (employee_table st) ->
  handle (POST_login form) ev c st = login_rejected c st.
Proof.
  intros Hnone. run_view.
  destruct (query_first _ (employee_table st)) as [[k e]|] eqn:E; cbn.
  - apply query_first_Some in E as [Hk Hname].
    apply bool_decide_eq_true_1 in Hname. by destruct (Hnone _ _ Hk).
  - by destruct c.
Qed.

Lemma login_wrong_password (ev : Env) (c : Session) (st : Store money)
    (form : LoginForm) (k : Z) (e : Employee) :
  employee_table st !! k = Some e ->
  username e = login_username form ->
  map_Forall (fun _ e' =>
      username e' = login_username form ->
      check_password_hash (password_hash e') (login_password form) = false)
    (employee_table st) ->
  handle (POST_login form) ev c st = login_rejected c st.
Proof.
  intros Hk Hname Hbad. run_view.
  destruct (query_first _ (employee_table st)) as [[k' e']|] eqn:E; cbn.
  - apply query_first_Some in E as [Hk' Hname'].
    apply bool_decide_eq_true_1 in Hname'.
    rewrite (Hbad _ _ Hk' Hname'). by destruct c.
  - by destruct c.
Qed.

(** C6: a login with a username no employee has and a login with an
    existing username whose password fails the hash check have the same
    visible outcome, the login page with the one generic
    invalid-credentials message, and neither changes the store or the
    session. *)
Theorem login_failures_indistinguishable (ev1 ev2 : Env) (c1 c2 : Session)
    (st1 st2 : Store money) (unknown wrong : LoginForm) (k : Z) (e : Employee) :
  map_Forall (fun _ e => username e <> login_username unknown)
    (employee_table st1) ->
  employee_table st2 !! k = Some e ->
  username e = login_username wrong ->
  map_Forall (fun _ e' =>
      username e' = login_username wrong ->
      check_password_hash (password_hash e') (login_password wrong) = false)
    (employee_table st2) ->
  let o1 := handle (POST_login unknown) ev1 c1 st1 in
  let o2 := handle (POST_login wrong) ev2 c2 st2 in
  response o1 = response o2 /\
  flashes o1 = flashes o2 /\
  response o1 = render_template login_html /\
  flashes o1 = [(msg_invalid_credentials, error)] /\
  store o1 = st1 /\ session o1 = c1 /\
  store o2 = st2 /\ session o2 = c2.
Proof.
  intros Hnone Hk Hname Hbad o1 o2. subst o1 o2.
  rewrite login_unknown_username by done.
  rewrite (login_wrong_password ev2 c2 st2 wrong k e) by done.
  by cbn.
Qed.

(** C7: a login whose username is that of a stored employee and whose
    password verifies against that employee's hash binds the session to the
    username and sets the employee's [last_login] to the current time; the
    employee's other fields, the other employees, the products and the
    sales are unchanged. *)
Theorem login_success (ev : Env) (c : Session) (st : Store money)
    (form : LoginForm) (k : Z) (e : Employee) :
  employee_table st !! k = Some e ->
  username e = login_username form ->
  map_Forall (fun k' e' => username e' = login_username form -> k' = k)
    (employee_table st) ->
  check_password_hash (password_hash e) (login_password form) = true ->
  let o := handle (POST_login form) ev c st in
  response o = redirect ep_home /\
  flashes o = [(msg_login_ok, success)] /\
  session o = {| session_username := Some (login_username form);
                 session_permanent := true |} /\
  (exists e',
      employee_table (store o) !! k = Some e' /\
      last_login e' = Some (clock ev) /\
      username e' = username e /\
      password_hash e' = password_hash e /\
      fullname e' = fullname e /\
      position e' = position e /\
      email e' = email e /\
      phone e' = phone e /\
      created_at e' = created_at e) /\
  (forall i, i <> k ->
             employee_table (store o) !! i = employee_table st !! i) /\
  product_table (store o) = product_table st /\
  sale_table (store o) = sale_table st.
Proof.
  intros Hk Hname Huniq Hcheck o. subst o.
  assert (query_first (fun e => bool_decide (username e = login_username form))
            (employee_table st) = Some (k, e)) as Hfirst.
  { apply query_first_unique; [done | by apply bool_decide_eq_true_2 |].
    intros k' e' Hk' Hf. apply bool_decide_eq_true_1 in Hf.
    by apply (Huniq k' e'). }
  run_view. rewrite Hfirst. cbn. rewrite Hcheck. cbn.
  repeat split; try done.
  - exists (logged_in (clock ev) e). by rewrite lookup_insert_eq.
  - intros i Hi. by rewrite lookup_insert_ne.
Qed.

(** *** Registration *)

(** The four ways a posted registration ends. *)
Lemma register_outcome (form : RegisterForm) (ev : Env) (c : Session)
    (st : Store money) :
  let o := handle (POST_register form) ev c st in
  let by_username :=
    query_first (fun e => bool_decide (username e = form_username form))
      (employee_table st) in
  let by_email :=
    query_first (fun e => bool_decide (email e = form_email form))
      (employee_table st) in
  ((validate_password (form_password form)).1 = false /\
   o = register_rejected (validate_password (form_password form)).2 c st) \/
  ((validate_password (form_password form)).1 = true /\
   form_password form <> form_confirm_password form /\
   o = register_rejected msg_password_mismatch c st) \/
  ((validate_password (form_password form)).1 = true /\
   form_password form = form_confirm_password form /\
   is_Some by_username /\
   o = register_rejected msg_username_taken c st) \/
  ((validate_password (form_password form)).1 = true /\
   form_password form = form_confirm_password form /\
   by_username = None /\ is_Some by_email /\
   o = register_rejected msg_email_taken c st) \/
  ((validate_password (form_password form)).1 = true /\
   form_password form = form_confirm_password form /\
   by_username = None /\ by_email = None /\
   response o = redirect ep_login /\
   flashes o = [(msg_register_ok, success)] /\
   exists e, username e = form_username form /\
             email e = form_email form /\
             employee_table (store o)
             = <[next_id (employee_table st) := e]> (employee_table st)).
Proof.
  cbn zeta. run_view.
  destruct (validate_password (form_password form)) as [[] msg]; cbn.
  2: { left. by destruct c. }
  right. case_bool_decide as Hpw; cbn.
  2: { left. by destruct c. }
  right.
  destruct (query_first (fun e => bool_decide (username e = _)) _)
    as [[k1 e1]|] eqn:E1; cbn.
  { left. by destruct c. }
  right.
  destruct (query_first (fun e => bool_decide (email e = _)) _)
    as [[k2 e2]|] eqn:E2; cbn.
  { left. by destruct c. }
  right. repeat split; try done. eexists. by repeat split.
Qed.

(** C4: [register] rejects a password exactly when it is weak.  A weak
    password (under 8 characters, or without a lowercase letter, an
    uppercase letter or a digit) gets the message of the first criterion
    it misses, in the order length, lowercase, uppercase, digit, and the
    store is unchanged; a password meeting the four criteria passes
    [validate_password], and whatever [register] then flashes is not a
    policy message. *)
Theorem register_password_policy (form : RegisterForm) (ev : Env)
    (c : Session) (st : Store money) :
  let password := form_password form in
  let o := handle (POST_register form) ev c st in
  ((validate_password password).1 = false <-> weak password) /\
  (weak password ->
     first_missing password (validate_password password).2 /\
     o = {| response := redirect ep_register;
            flashes := [((validate_password password).2, error)];
            session := c;
            store := st |}) /\
  (~ weak password ->
     validate_password password = (true, msg_password_safe) /\
     forall m cat, (m, cat) ∈ flashes o -> ~ policy_message m).
Proof.
  intros password o. subst password o.
  destruct (validate_password_spec (form_password form))
    as [(Hw & Hv & Hm) | (Hs & Hv)].
  - split; [done|]. split; [|done]. intros _. split; [done|].
    destruct (register_outcome form ev c st)
      as [[_ Ho]|[[Hv' _]|[[Hv' _]|[[Hv' _]|[Hv' _]]]]];
      [exact Ho | congruence..].
  - split; [rewrite Hv; cbn; split; [discriminate | done]|].
    split; [done|]. intros _. split; [done|].
    intros m cat Hin [?|[?|[?|?]]]; subst m;
      destruct (register_outcome form ev c st)
        as [[Hv' _]|[(_ & _ & Ho)|[(_ & _ & _ & Ho)
           |[(_ & _ & _ & _ & Ho)|(_ & _ & _ & _ & _ & Ho & _)]]]];
      try (rewrite Hv in Hv'; discriminate);
      rewrite Ho in Hin; cbn in Hin;
      apply list_elem_of_singleton in Hin; discriminate.
Qed.

(** Registration keeps usernames and emails unique. *)
Lemma register_preserves_unique (form : RegisterForm) (ev : Env)
    (c : Session) (st : Store money) :
  unique_credentials (employee_table st) ->
  unique_credentials
    (employee_table (store (handle (POST_register form) ev c st))).
Proof.
  intros Huniq.
  destruct (register_outcome form ev c st)
    as [[_ Ho]|[(_ & _ & Ho)|[(_ & _ & _ & Ho)
       |[(_ & _ & _ & _ & Ho)
        |(_ & _ & Hu & Hm & _ & _ & e & Hue & Hme & Ho)]]]];
    rewrite Ho; try done.
  pose proof (next_id_fresh (employee_table st)) as Hfresh.
  pose proof (query_first_None _ _ Hu) as Hnu.
  pose proof (query_first_None _ _ Hm) as Hnm.
  intros k1 e1 Hk1 k2 e2 Hk2 Hsame.
  apply lookup_insert_Some in Hk1 as [[<- <-]|[Hne1 Hk1]];
    apply lookup_insert_Some in Hk2 as [[<- <-]|[Hne2 Hk2]]; try done.
  - specialize (Hnu _ _ Hk2). specialize (Hnm _ _ Hk2).
    apply bool_decide_eq_false_1 in Hnu, Hnm.
    destruct Hsame; congruence.
  - specialize (Hnu _ _ Hk1). specialize (Hnm _ _ Hk1).
    apply bool_decide_eq_false_1 in Hnu, Hnm.
    destruct Hsame; congruence.
  - by apply (Huniq k1 e1 Hk1 k2 e2 Hk2).
Qed.

(** C5: when some employee already has the requested username or the
    requested email, a registration whose password passes the policy and
    matches its confirmation is rejected with the duplicate-username
    message, or with the duplicate-email message when only the email is
    taken, and the store is unchanged; and no registration at all breaks
    the uniqueness of usernames and emails. *)
Theorem register_duplicate_rejected :
  (forall (form : RegisterForm) (ev : Env) (c : Session) (st : Store money)
          (k : Z) (e : Employee),
     (validate_password (form_password form)).1 = true ->
     form_password form = form_confirm_password form ->
     employee_table st !! k = Some e ->
     username e = form_username form \/ email e = form_email form ->
     let o := handle (POST_register form) ev c st in
     response o = redirect ep_register /\
     (flashes o = [(msg_username_taken, error)] /\
        (exists k' e', employee_table st !! k' = Some e' /\
                       username e' = form_username form)
      \/
      flashes o = [(msg_email_taken, error)] /\
        map_Forall (fun _ e' => username e' <> form_username form)
          (employee_table st) /\
        (exists k' e', employee_table st !! k' = Some e' /\
                       email e' = form_email form)) /\
     session o = c /\
     store o = st) /\
  (forall (form : RegisterForm) (ev : Env) (c : Session) (st : Store money),
     unique_credentials (employee_table st) ->
     unique_credentials
       (employee_table (store (handle (POST_register form) ev c st)))).
Proof.
  split; [|exact register_preserves_unique].
  intros form ev c st k e Hv Hpw Hk Hdup o. subst o.
  destruct (register_outcome form ev c st)
    as [[Hv' _]|[(_ & Hpw' & _)|[(_ & _ & [[k1 e1] Hu] & Ho)
       |[(_ & _ & Hu & [[k2 e2] Hm] & Ho)|(_ & _ & Hu & Hm & _)]]]].
  - congruence.
  - done.
  - rewrite Ho. cbn. split; [done|]. split; [|done]. left. split; [done|].
    apply query_first_Some in Hu as [Hk1 Hn1].
    apply bool_decide_eq_true_1 in Hn1. eauto.
  - rewrite Ho. cbn. split; [done|]. split; [|done]. right. split; [done|].
    split.
    + intros k' e' Hk'. pose proof (query_first_None _ _ Hu _ _ Hk') as Hn.
      by apply bool_decide_eq_false_1 in Hn.
    + apply query_first_Some in Hm as [Hk2 Hn2].
      apply bool_decide_eq_true_1 in Hn2. eauto.
  - pose proof (query_first_None _ _ Hu _ _ Hk) as Hnu.
    pose proof (query_first_None _ _ Hm _ _ Hk) as Hnm.
    apply bool_decide_eq_false_1 in Hnu, Hnm. by destruct Hdup.
Qed.

End Properties.

(** ** The effects of a request *)

Lemma query_first_Forall_None {A} (f : A -> bool) (t : gmap Z A) :
  map_Forall (fun _ a => f a = false) t -> query_first f t = None.
Proof.
  intros Hall. destruct (query_first f t) as [[k a]|] eqn:E; [|done].
  apply query_first_Some in E as [Hk Hf]. rewrite (Hall _ _ Hk) in Hf.
  discriminate.
Qed.

Lemma has_sales_true {money} (id : Z) (t : gmap Z (Sale money)) :
  has_sales id t = true <-> exists k s, t !! k = Some s /\ product_id s = id.
Proof.
  unfold has_sales. rewrite existsb_exists. split.
  - intros ([k s] & Hin & Hid). apply list_elem_of_In in Hin.
    apply elem_of_query_all in Hin. apply bool_decide_eq_true_1 in Hid.
    eauto.
  - intros (k & s & Hk & Hid). exists (k, s). split.
    + apply list_elem_of_In. by apply elem_of_query_all.
    + by apply bool_decide_eq_true_2.
Qed.

Lemma validate_password_true (password : text) :
  (validate_password password).1 = true <->
  (8 <= length password)%nat /\
  re_search_class lower_a lower_z password = true /\
  re_search_class upper_A upper_Z password = true /\
  re_search_class digit_0 digit_9 password = true.
Proof.
  unfold validate_password.
  destruct (Nat.ltb_spec (length password) 8);
    destruct (re_search_class lower_a lower_z password);
    destruct (re_search_class upper_A upper_Z password);
    destruct (re_search_class digit_0 digit_9 password); cbn;
    split; try done; try (intros (? & ? & ? & ?); done || lia);
    intros _; repeat split; done || lia.
Qed.

Lemma re_search_class_app (lo hi : N) (s1 s2 : text) :
  re_search_class lo hi (s1 ++ s2)
  = re_search_class lo hi s1 || re_search_class lo hi s2.
Proof. apply existsb_app. Qed.

(** X14: the password policy has no upper bound and forbids no character.
    A password that passes [validate_password] still passes with any text
    put before it and any text put after it. *)
Theorem validate_password_extend (before password after : text) :
  (validate_password password).1 = true ->
  (validate_password (before ++ password ++ after)).1 = true.
Proof.
  rewrite !validate_password_true. intros (Hlen & Hlow & Hup & Hdig).
  rewrite !re_search_class_app, Hlow, Hup, Hdig, !orb_true_r.
  rewrite !length_app. repeat split; try done. lia.
Qed.

#[global] Instance later_first_total {money} : Total (@later_first money).
Proof. intros a b. unfold later_first. lia. Qed.

#[global] Instance later_first_trans {money} :
  Transitive (@later_first money).
Proof. intros a b c. unfold later_first. lia. Qed.

Lemma sold_with_stock {money} (q now : Z) (p : Product money) :
  onupdate (negb (bool_decide (stock p - q = stock p))) now
    (with_stock (stock p - q) p)
  = sold q now p.
Proof.
  unfold sold, with_stock.
  by rewrite (bool_decide_ext (stock p - q = stock p) (q = 0)) by lia.
Qed.

Lemma order_by_sale_date_desc_sorted {money} (t : gmap Z (Sale money)) :
  StronglySorted later_first (order_by_sale_date_desc t).
Proof. apply (StronglySorted_merge_sort later_first). Qed.

Lemma later_first_newest_first {money} (l : list (Z * Sale money)) :
  StronglySorted later_first l ->
  StronglySorted (fun a b => sale_date b.2 <= sale_date a.2) l.
Proof.
  induction 1 as [|a l Hl IH Ha]; constructor; [done|].
  eapply Forall_impl; [exact Ha|]. intros b. unfold later_first. lia.
Qed.

Section Behaviour.

Context {money : Type} `{Platform money}.

(** Every request changes the database by one of the effects, or not at
    all. *)
Lemma handle_effect (r : Request money) (ev : Env) (c : Session)
    (st : Store money) :
  effect st (store (handle r ev c st)).
Proof.
  destruct c as [[u|] cp], r; run_cases;
    unfold with_sales, with_products, with_employees; cbn;
    repeat match goal with
    | E : bool_decide (is_Some _) = false |- _ =>
        apply bool_decide_eq_false_1, eq_None_not_Some in E
    | E : bool_decide _ = false |- _ => apply bool_decide_eq_false_1 in E
    end;
    first
      [ apply effect_none
      | match goal with
        | E : query_first _ _ = Some (?k, ?e) |- _ =>
            apply query_first_Some in E as [Hk _];
            by apply (effect_login st k e (clock ev))
        end
      | match goal with
        | form : RegisterForm |- _ =>
            apply (effect_register st (registered form ev));
            intros k e Hk; cbn;
            match goal with
            | E : query_first _ _ = None |- _ =>
                pose proof (query_first_None _ _ E _ _ Hk) as Hn;
                by apply bool_decide_eq_false_1 in Hn
            end
        end
      | match goal with
        | form : ProductForm money |- _ =>
            by apply (effect_add_product st
                        (entered form (utcnow ev 0) (utcnow ev 1)))
        end
      | by eapply effect_edit_product
      | by eapply effect_delete_product
      | rewrite sold_with_stock;
        match goal with
        | |- effect _ {| employee_table := _; product_table := _;
                         sale_table := <[_ := ?s]> _ |} =>
            eapply (effect_sale st _ _ s (utcnow ev 0));
            [eassumption | reflexivity | cbn; lia]
        end
      ].
Qed.

(** *** What holds after any sequence of requests *)

Lemma serve_invariant (P : Store money -> Prop) :
  (forall st st', effect st st' -> P st -> P st') ->
  forall rs st, P st -> P (serve rs st).
Proof.
  intros Hstep rs. induction rs as [|[[r ev] c] rs IH]; intros st HP.
  - exact HP.
  - apply (IH (store (handle r ev c st))).
    apply (Hstep st); [apply handle_effect | exact HP].
Qed.

Lemma same_account_logged_in (now : Z) (e e' : Employee) :
  same_account e e' -> same_account e (logged_in now e').
Proof. unfold same_account. by cbn. Qed.

(** X1: employees are never removed.  Whatever requests are served, a
    stored employee keeps its key, username, password hash, name, position,
    email, phone and creation time; only [last_login] may change. *)
Theorem employees_never_removed
    (rs : list (Request money * Env * Session)) (st : Store money)
    (k : Z) (e : Employee) :
  employee_table st !! k = Some e ->
  exists e', employee_table (serve rs st) !! k = Some e' /\
             same_account e e'.
Proof.
  intros Hk.
  apply (serve_invariant
           (fun st => exists e', employee_table st !! k = Some e' /\
                                 same_account e e')).
  - clear. intros st st' Heff (e' & Hk & Hsame).
    destruct Heff as [|e0 _ _|k0 e0 now Hk0| | | |]; cbn; eauto.
    + exists e'. split; [|done]. rewrite lookup_insert_ne; [done|].
      pose proof (next_id_fresh (employee_table st)). congruence.
    + destruct (decide (k0 = k)) as [->|Hne].
      * rewrite lookup_insert_eq. eexists. split; [done|].
        apply same_account_logged_in. congruence.
      * rewrite lookup_insert_ne by done. eauto.
  - exists e. by repeat split.
Qed.

Lemma effect_unique_credentials (st st' : Store money) :
  effect st st' ->
  unique_credentials (employee_table st) ->
  unique_credentials (employee_table st').
Proof.
  intros Heff Huniq.
  destruct Heff as [|e0 Hu Hm|k e now Hk| | | |]; cbn; try done.
  - pose proof (next_id_fresh (employee_table st)) as Hfresh.
    intros k1 e1 Hk1 k2 e2 Hk2 Hsame.
    apply lookup_insert_Some in Hk1 as [[<- <-]|[Hne1 Hk1]];
      apply lookup_insert_Some in Hk2 as [[<- <-]|[Hne2 Hk2]]; try done.
    + pose proof (Hu _ _ Hk2). pose proof (Hm _ _ Hk2).
      destruct Hsame; congruence.
    + pose proof (Hu _ _ Hk1). pose proof (Hm _ _ Hk1).
      destruct Hsame; congruence.
    + by apply (Huniq k1 e1 Hk1 k2 e2 Hk2).
  - assert (forall i x, <[k := logged_in now e]> (employee_table st) !! i
                        = Some x ->
              exists y, employee_table st !! i = Some y /\
                        username y = username x /\ email y = email x)
      as Hold.
    { intros i x Hi. apply lookup_insert_Some in Hi as [[<- <-]|[_ Hi]].
      - by exists e.
      - by exists x. }
    intros k1 e1 Hk1 k2 e2 Hk2 Hsame.
    apply Hold in Hk1 as (y1 & Hy1 & Hu1 & Hm1).
    apply Hold in Hk2 as (y2 & Hy2 & Hu2 & Hm2).
    apply (Huniq k1 y1 Hy1 k2 y2 Hy2).
    destruct Hsame; [left|right]; congruence.
Qed.

(** X2: usernames and emails stay unique.  If no two employees share a
    username or an email, the same holds after any sequence of requests. *)
Theorem unique_credentials_invariant
    (rs : list (Request money * Env * Session)) (st : Store money) :
  unique_credentials (employee_table st) ->
  unique_credentials (employee_table (serve rs st)).
Proof.
  apply (serve_invariant (fun st => unique_credentials (employee_table st))).
  apply effect_unique_credentials.
Qed.

(** X3: a product that has been sold is never deleted.  Once a sale row
    refers to an existing product, the product is still in the store, and
    still referred to by a sale, after any sequence of requests. *)
Theorem sold_product_never_deleted
    (rs : list (Request money * Env * Session)) (st : Store money)
    (id : Z) :
  has_sales id (sale_table st) = true ->
  is_Some (product_table st !! id) ->
  is_Some (product_table (serve rs st) !! id) /\
  has_sales id (sale_table (serve rs st)) = true.
Proof.
  intros Hs Hp.
  apply (serve_invariant
           (fun st => is_Some (product_table st !! id) /\
                      has_sales id (sale_table st) = true));
    [|done].
  clear. intros st st' Heff [Hp Hs].
  destruct Heff
    as [| | |p'|id' p' p'' Hp' _|id' p' Hp' Hs'|id' p' s now Hp' Hid Hq];
    cbn; try done.
  - split; [|done]. apply lookup_insert_is_Some.
    destruct (decide (next_id (product_table st) = id)); auto.
  - split; [|done]. apply lookup_insert_is_Some.
    destruct (decide (id' = id)); auto.
  - split; [|done]. destruct (decide (id' = id)) as [->|Hne].
    + congruence.
    + by rewrite lookup_delete_ne.
  - split.
    + apply lookup_insert_is_Some. destruct (decide (id' = id)); auto.
    + apply has_sales_true in Hs as (k & s' & Hk & Hid').
      apply has_sales_true. exists k, s'. split; [|done].
      rewrite lookup_insert_ne; [done|].
      pose proof (next_id_fresh (sale_table st)). congruence.
Qed.

(** *** Registration and login *)

(** The outcome of a registration that passes every check. *)
Lemma register_accepted (form : RegisterForm) (ev : Env) (c : Session)
    (st : Store money) :
  (validate_password (form_password form)).1 = true ->
  form_password form = form_confirm_password form ->
  map_Forall (fun _ e => username e <> form_username form)
    (employee_table st) ->
  map_Forall (fun _ e => email e <> form_email form) (employee_table st) ->
  handle (POST_register form) ev c st
  = {| response := redirect ep_login;
       flashes := [(msg_register_ok, success)];
       session := c;
       store :=
         {| employee_table :=
              <[next_id (employee_table st) := registered form ev]>
                (employee_table st);
            product_table := product_table st;
            sale_table := sale_table st |} |}.
Proof.
  intros Hv Hpw Hu Hm. run_view.
  destruct (validate_password (form_password form)) as [b msg].
  cbn in Hv. subst b. cbn.
  rewrite bool_decide_eq_true_2 by done. cbn.
  rewrite query_first_Forall_None.
  2: { intros k e Hk. apply bool_decide_eq_false_2. by apply (Hu k e). }
  cbn. rewrite query_first_Forall_None.
  2: { intros k e Hk. apply bool_decide_eq_false_2. by apply (Hm k e). }
  by destruct c.
Qed.

(** The outcome of a login that finds the employee and verifies. *)
Lemma login_accepted (form : LoginForm) (ev : Env) (c : Session)
    (st : Store money) (k : Z) (e : Employee) :
  query_first (fun e => bool_decide (username e = login_username form))
    (employee_table st) = Some (k, e) ->
  check_password_hash (password_hash e) (login_password form) = true ->
  handle (POST_login form) ev c st
  = {| response := redirect ep_home;
       flashes := [(msg_login_ok, success)];
       session := {| session_username := Some (login_username form);
                     session_permanent := true |};
       store :=
         {| employee_table :=
              <[k := logged_in (clock ev) e]> (employee_table st);
            product_table := product_table st;
            sale_table := sale_table st |} |}.
Proof.
  intros Hfirst Hcheck. run_view. rewrite Hfirst. cbn.
  rewrite Hcheck. reflexivity.
Qed.

(** X4: a registration whose password passes the policy and equals its
    confirmation, under a username and an email no employee has, stores
    one new employee under a fresh key, with the fields of the form, the
    hash of the password, the current time as creation time and no
    [last_login]; existing employees, products, sales and the session are
    unchanged (the new employee is not logged in), and the answer is a
    redirect to the login page. *)
Theorem register_creates_employee (form : RegisterForm) (ev : Env)
    (c : Session) (st : Store money) :
  (validate_password (form_password form)).1 = true ->
  form_password form = form_confirm_password form ->
  map_Forall (fun _ e => username e <> form_username form)
    (employee_table st) ->
  map_Forall (fun _ e => email e <> form_email form) (employee_table st) ->
  let o := handle (POST_register form) ev c st in
  let id := next_id (employee_table st) in
  response o = redirect ep_login /\
  flashes o = [(msg_register_ok, success)] /\
  session o = c /\
  employee_table st !! id = None /\
  employee_table (store o) !! id
  = Some {| username := form_username form;
            password_hash :=
              generate_password_hash (salt ev) (form_password form);
            fullname := form_fullname form;
            position := form_position form;
            email := form_email form;
            phone := form_phone form;
            created_at := clock ev;
            last_login := None |} /\
  (forall i, i <> id ->
             employee_table (store o) !! i = employee_table st !! i) /\
  product_table (store o) = product_table st /\
  sale_table (store o) = sale_table st.
Proof.
  intros Hv Hpw Hu Hm o id. subst o id.
  rewrite register_accepted by done. cbn.
  repeat split; try done.
  - apply next_id_fresh.
  - by rewrite lookup_insert_eq.
  - intros i Hi. by rewrite lookup_insert_ne.
Qed.

(** X5: a registration whose password passes the policy but differs from
    its confirmation is rejected with the mismatch message and changes
    nothing, whether or not the username or the email is taken. *)
Theorem register_password_mismatch (form : RegisterForm) (ev : Env)
    (c : Session) (st : Store money) :
  (validate_password (form_password form)).1 = true ->
  form_password form <> form_confirm_password form ->
  handle (POST_register form) ev c st
  = {| response := redirect ep_register;
       flashes := [(msg_password_mismatch, error)];
       session := c;
       store := st |}.
Proof.
  intros Hv Hpw. run_view.
  destruct (validate_password (form_password form)) as [b msg].
  cbn in Hv. subst b. cbn.
  rewrite bool_decide_eq_false_2 by done. by destruct c.
Qed.

(** X6: registration and login round trip.  If the hash
    [generate_password_hash] makes of the password verifies against it,
    then after an accepted registration a login with the same username and
    password succeeds: the session is bound to the username and the new
    employee's [last_login] is the time of the login. *)
Theorem register_then_login (form : RegisterForm) (ev ev' : Env)
    (c c' : Session) (st : Store money) :
  (validate_password (form_password form)).1 = true ->
  form_password form = form_confirm_password form ->
  map_Forall (fun _ e => username e <> form_username form)
    (employee_table st) ->
  map_Forall (fun _ e => email e <> form_email form) (employee_table st) ->
  check_password_hash
    (generate_password_hash (salt ev) (form_password form))
    (form_password form) = true ->
  let st' := store (handle (POST_register form) ev c st) in
  let o := handle (POST_login {| login_username := form_username form;
                                 login_password := form_password form |})
                  ev' c' st' in
  response o = redirect ep_home /\
  session_username (session o) = Some (form_username form) /\
  exists e, employee_table (store o) !! next_id (employee_table st) = Some e /\
            username e = form_username form /\
            last_login e = Some (clock ev').
Proof.
  intros Hv Hpw Hu Hm Hcheck st' o. subst st' o.
  rewrite register_accepted by done. cbn.
  rewrite (login_accepted _ ev' c' _ (next_id (employee_table st))
             (registered form ev)); [| |exact Hcheck].
  - cbn. split; [done|]. split; [done|].
    eexists. rewrite lookup_insert_eq. by split.
  - cbn. apply query_first_unique.
    + by rewrite lookup_insert_eq.
    + by apply bool_decide_eq_true_2.
    + intros k e Hk Hname. apply bool_decide_eq_true_1 in Hname.
      apply lookup_insert_Some in Hk as [[<- _]|[_ Hk]]; [done|].
      by destruct (Hu _ _ Hk).
Qed.

(** X7: logging out closes the gate.  [logout] removes the username from
    the session, whatever it held, and leaves the database alone; a request
    to a protected route made with the resulting session is redirected to
    the login page. *)
Theorem logout_closes_gate (r : Request money) (ev ev' : Env) (c : Session)
    (st : Store money) :
  protected (endpoint r) = true ->
  let o := handle GET_logout ev c st in
  response o = redirect ep_login /\
  flashes o = [(msg_logout_ok, success)] /\
  session_username (session o) = None /\
  session_permanent (session o) = session_permanent c /\
  store o = st /\
  handle r ev' (session o) (store o)
  = {| response := redirect ep_login;
       flashes := [(msg_login_first, error)];
       session := session o;
       store := st |}.
Proof.
  intros Hr o. subst o. destruct c as [cu cp].
  destruct r; try discriminate Hr; done.
Qed.

(** X8: logging in opens the gate.  After a login that finds its employee
    and verifies the password, the product page requested with the
    resulting session shows exactly the rows of the product table. *)
Theorem login_opens_gate (form : LoginForm) (ev ev' : Env) (c : Session)
    (st : Store money) (k : Z) (e : Employee) :
  employee_table st !! k = Some e ->
  username e = login_username form ->
  map_Forall (fun k' e' => username e' = login_username form -> k' = k)
    (employee_table st) ->
  check_password_hash (password_hash e) (login_password form) = true ->
  let o := handle (POST_login form) ev c st in
  exists rows,
    response (handle GET_products ev' (session o) (store o))
    = render_template (products_html rows) /\
    forall id p, (id, p) ∈ rows <-> product_table st !! id = Some p.
Proof.
  intros Hk Hname Huniq Hcheck o. subst o.
  rewrite (login_accepted form ev c st k e); [|  |done].
  - eexists. split; [reflexivity|]. intros id p. cbn.
    apply elem_of_query_all.
  - apply query_first_unique; [done | by apply bool_decide_eq_true_2 |].
    intros k' e' Hk' Hf. apply bool_decide_eq_true_1 in Hf.
    by apply (Huniq k' e').
Qed.

(** *** The catalog *)



(** X11: a product id within 64 bits that is not in the store gives 404.
    The edit page, a posted edit, a deletion and a posted sale for such an
    id all end in Not Found, flash nothing and leave the database and the
    session as they were. *)
Theorem missing_product_not_found (id : Z) (form : ProductForm money)
    (q : Z) (ev : Env) (c : Session) (st : Store money) (u : text) :
  session_username c = Some u ->
  product_table st !! id = None ->
  int64 id = true ->
  let not_found := {| response := failed NotFound; flashes := [];
                      session := c; store := st |} in
  handle (GET_edit_product id) ev c st = not_found /\
  handle (POST_edit_product id form) ev c st = not_found /\
  handle (GET_delete_product id) ev c st = not_found /\
  handle (POST_add_sale {| form_product_id := id; form_quantity := q |})
         ev c st = not_found.
Proof.
  intros Hu Hp _ not_found. subst not_found.
  destruct c as [cu cp]; simpl in Hu; subst cu.
  repeat split; run_view; by rewrite Hp.
Qed.

(** *** Sales *)

(** X12: a sale from a session whose username belongs to no employee is
    not recorded.  When the stock covers the quantity the view fails with
    a server error before it writes anything: no sale row is added and the
    stock is not lowered. *)
Theorem add_sale_unknown_employee (ev : Env) (c : Session)
    (st : Store money) (u : text) (id q : Z) (p : Product money) :
  session_username c = Some u ->
  map_Forall (fun _ e => username e <> u) (employee_table st) ->
  product_table st !! id = Some p ->
  q <= stock p ->
  handle (POST_add_sale {| form_product_id := id; form_quantity := q |})
         ev c st
  = {| response := failed InternalServerError;
       flashes := [];
       session := c;
       store := st |}.
Proof.
  intros Hu Hnone Hp Hq.
  destruct c as [cu cp]; simpl in Hu; subst cu. run_view. rewrite Hp. cbn.
  rewrite query_first_Forall_None.
  2: { intros k e Hk. apply bool_decide_eq_false_2. by apply (Hnone k e). }
  cbn. rewrite bool_decide_eq_false_2 by lia.
  by destruct (money_mul_int (price p) q).
Qed.

(** X13: a posted sale never leaves a negative stock behind.  If no
    product has a negative stock before the request, none has one after
    it, whatever the quantity (negative quantities included) and whoever
    asks. *)
Theorem add_sale_keeps_stock_nonnegative (form : SaleForm) (ev : Env)
    (c : Session) (st : Store money) :
  stock_nonnegative (product_table st) ->
  stock_nonnegative
    (product_table (store (handle (POST_add_sale form) ev c st))).
Proof.
  intros Hst. destruct c as [[u|] cp]; run_cases; try done.
  intros i p' Hi.
  apply lookup_insert_Some in Hi as [[_ <-]|[_ Hi]]; [|by apply (Hst i)].
  cbn. match goal with
       | E : bool_decide (_ < _) = false |- _ =>
           apply bool_decide_eq_false_1 in E
       end. lia.
Qed.

(** X15: two sales add up.  Two sales of the same product, one after the
    other, each within the stock left, with quantities and resulting
    stocks within the 64 bits of an INTEGER and totals that are defined
    and not NaN, lower its stock by the sum of the two quantities and add
    two sale rows under different keys, each with its quantity and its
    total. *)
Theorem add_sale_twice (ev1 ev2 : Env) (c : Session) (st : Store money)
    (u : text) (id q1 q2 k : Z) (p : Product money) (e : Employee)
    (total1 total2 : money) :
  session_username c = Some u ->
  product_table st !! id = Some p ->
  employee_table st !! k = Some e ->
  username e = u ->
  q1 <= stock p ->
  q2 <= stock p - q1 ->
  int64 q1 = true ->
  int64 q2 = true ->
  int64 (stock p - q1) = true ->
  int64 (stock p - q1 - q2) = true ->
  money_mul_int (price p) q1 = Some total1 ->
  money_mul_int (price p) q2 = Some total2 ->
  money_is_nan total1 = false ->
  money_is_nan total2 = false ->
  let o1 := handle (POST_add_sale {| form_product_id := id;
                                     form_quantity := q1 |}) ev1 c st in
  let o2 := handle (POST_add_sale {| form_product_id := id;
                                     form_quantity := q2 |})
                   ev2 (session o1) (store o1) in
  response o2 = redirect ep_sales /\
  (exists p', product_table (store o2) !! id = Some p' /\
              stock p' = stock p - (q1 + q2)) /\
  size (sale_table (store o2)) = S (S (size (sale_table st))) /\
  exists i1 i2 s1 s2,
    i1 <> i2 /\
    sale_table st !! i1 = None /\ sale_table st !! i2 = None /\
    sale_table (store o2) !! i1 = Some s1 /\
    quantity s1 = q1 /\ total_price s1 = total1 /\
    sale_table (store o2) !! i2 = Some s2 /\
    quantity s2 = q2 /\ total_price s2 = total2.
Proof.
  intros Hu Hp Hk He Hq1 Hq2 Hq1' Hq2' Hs1 Hs2 Hm1 Hm2 Hn1 Hn2 o1 o2.
  destruct (query_first_exists (fun e => bool_decide (username e = u))
              (employee_table st) k e Hk) as (eid & e' & Hfirst).
  { by apply bool_decide_eq_true_2. }
  subst o2 o1.
  rewrite (add_sale_accepted ev1 c st u id q1 eid p e' total1) by done. cbn.
  pose proof (next_id_fresh (sale_table st)) as Hfresh1.
  set (sales1 := <[next_id (sale_table st) := _]> (sale_table st)).
  pose proof (next_id_fresh sales1) as Hfresh2.
  rewrite (add_sale_accepted ev2 c _ u id q2 eid (sold q1 (clock ev1) p) e'
             total2);
    [|done|by cbn; rewrite lookup_insert_eq|done|by cbn; lia|done
     |by cbn|by cbn|done].
  cbn. fold sales1. split; [done|]. split; [|split].
  - eexists. rewrite lookup_insert_eq. split; [done|]. cbn. lia.
  - rewrite map_size_insert_None by done.
    unfold sales1. by rewrite map_size_insert_None.
  - assert (next_id sales1 <> next_id (sale_table st)) as Hne.
    { intros Heq. rewrite Heq in Hfresh2. unfold sales1 in Hfresh2.
      by rewrite lookup_insert_eq in Hfresh2. }
    exists (next_id (sale_table st)), (next_id sales1).
    eexists _, _. split; [done|]. split; [done|]. split.
    { unfold sales1 in Hfresh2.
      rewrite lookup_insert_ne in Hfresh2 by done. exact Hfresh2. }
    split.
    { rewrite lookup_insert_ne by done. unfold sales1.
      by rewrite lookup_insert_eq. }
    split; [done|]. split; [done|].
    split; [by rewrite lookup_insert_eq|done].
Qed.

(** X16: the sales page lists every sale once, newest first.  For a
    logged-in session the rows shown are a permutation of the sale table,
    sorted by descending [sale_date], and the database is unchanged. *)
Theorem sales_newest_first (ev : Env) (c : Session) (st : Store money)
    (u : text) :
  session_username c = Some u ->
  exists rows,
    handle GET_sales ev c st
    = {| response := render_template (sales_html rows); flashes := [];
         session := c; store := st |} /\
    rows ≡ₚ map_to_list (sale_table st) /\
    (forall i s, (i, s) ∈ rows <-> sale_table st !! i = Some s) /\
    StronglySorted (fun a b => sale_date b.2 <= sale_date a.2) rows.
Proof.
  intros Hu. destruct c as [cu cp]; simpl in Hu; subst cu.
  exists (order_by_sale_date_desc (sale_table st)).
  split; [reflexivity|]. unfold order_by_sale_date_desc.
  split; [|split].
  - rewrite merge_sort_Permutation. apply query_all_Permutation.
  - intros i s. rewrite merge_sort_Permutation. apply elem_of_query_all.
  - apply later_first_newest_first, order_by_sale_date_desc_sorted.
Qed.

(** X17: the dashboard shows the logged-in employee, every product and
    the five newest sales: its sale rows are rows of the sale table, five
    of them or all when there are fewer, newest first, and no sale left
    out is newer than a sale shown.  The database is unchanged. *)
Theorem home_dashboard (ev : Env) (c : Session) (st : Store money)
    (u : text) :
  session_username c = Some u ->
  exists employee products recent,
    handle GET_home ev c st
    = {| response :=
           render_template (dashboard_html employee products recent);
         flashes := []; session := c; store := st |} /\
    match employee with
    | Some (k, e) => employee_table st !! k = Some e /\ username e = u
    | None => map_Forall (fun _ e => username e <> u) (employee_table st)
    end /\
    (forall id p, (id, p) ∈ products <-> product_table st !! id = Some p) /\
    (forall i s, (i, s) ∈ recent -> sale_table st !! i = Some s) /\
    length recent = Nat.min 5 (size (sale_table st)) /\
    StronglySorted (fun a b => sale_date b.2 <= sale_date a.2) recent /\
    forall a i s, a ∈ recent -> sale_table st !! i = Some s ->
                  (i, s) ∉ recent -> sale_date s <= sale_date a.2.
Proof.
  intros Hu. destruct c as [cu cp]; simpl in Hu; subst cu.
  set (rows := order_by_sale_date_desc (sale_table st)).
  assert (StronglySorted later_first rows) as Hsorted
    by apply order_by_sale_date_desc_sorted.
  assert (forall i s, (i, s) ∈ rows <-> sale_table st !! i = Some s) as Hrows.
  { intros i s. unfold rows, order_by_sale_date_desc.
    rewrite merge_sort_Permutation. apply elem_of_query_all. }
  exists (query_first (fun e => bool_decide (username e = u))
            (employee_table st)),
         (query_all (product_table st)), (take 5 rows).
  split; [reflexivity|]. split; [|split; [|split; [|split; [|split]]]].
  - destruct (query_first _ _) as [[k e]|] eqn:E.
    + apply query_first_Some in E as [Hk Hn].
      by apply bool_decide_eq_true_1 in Hn.
    + intros k e Hk. pose proof (query_first_None _ _ E _ _ Hk) as Hn.
      by apply bool_decide_eq_false_1 in Hn.
  - intros id p. apply elem_of_query_all.
  - intros i s Hin. apply Hrows. by apply (subseteq_take 5).
  - rewrite length_take. f_equal. unfold rows, order_by_sale_date_desc.
    rewrite merge_sort_Permutation, query_all_Permutation.
    apply length_map_to_list.
  - apply later_first_newest_first.
    rewrite <- (take_drop 5 rows) in Hsorted.
    by apply StronglySorted_app_1_l in Hsorted.
  - intros a i s Ha Hi Hout. apply Hrows in Hi.
    rewrite <- (take_drop 5 rows) in Hi, Hsorted.
    apply elem_of_app in Hi as [Hi|Hi]; [done|].
    pose proof (StronglySorted_app_1_elem_of later_first _ _ a (i, s)
                  Hsorted Ha Hi) as Hlater.
    unfold later_first in Hlater. cbn in Hlater. lia.
Qed.

(** *** Frames *)

(** X18: showing a page changes nothing.  A GET request for the
    dashboard, the login or registration form, the product list, the
    add-product, edit-product or add-sale form, or the sales list leaves
    the database and the session as they were, logged in or not.  (A
    deletion is a GET as well and is not among them.) *)
Theorem pages_change_nothing (r : Request money) (ev : Env) (c : Session)
    (st : Store money) :
  shows_page r = true ->
  store (handle r ev c st) = st /\ session (handle r ev c st) = c.
Proof.
  intros Hr. destruct c as [[u|] cp], r; try discriminate Hr; run_cases;
    done.
Qed.

(** X19: only a posted login and a logout touch the session.  Every other
    request, a registration included, returns the session it was given. *)
Theorem session_changes_only_by_login_logout (r : Request money) (ev : Env)
    (c : Session) (st : Store money) :
  keeps_session r = true ->
  session (handle r ev c st) = c.
Proof.
  intros Hr. destruct c as [[u|] cp], r; try discriminate Hr; run_cases;
    done.
Qed.

(** *** Round trips on the catalog *)


(** X21: a deleted product is gone for every view.  After the deletion of
    a product no sale refers to, its edit page, a second deletion and a
    sale of it all end in Not Found, and it is not in the listing. *)
Theorem delete_product_then_not_found (id q : Z) (ev ev' : Env)
    (c : Session) (st : Store money) (u : text) (p : Product money) :
  session_username c = Some u ->
  product_table st !! id = Some p ->
  has_sales id (sale_table st) = false ->
  let o := handle (GET_delete_product id) ev c st in
  response o = redirect ep_products /\
  response (handle (GET_edit_product id) ev' (session o) (store o))
  = failed NotFound /\
  response (handle (GET_delete_product id) ev' (session o) (store o))
  = failed NotFound /\
  response (handle (POST_add_sale {| form_product_id := id;
                                     form_quantity := q |})
                   ev' (session o) (store o))
  = failed NotFound /\
  sale_table (store o) = sale_table st /\
  employee_table (store o) = employee_table st.
Proof.
  intros Hu Hp Hs o. subst o.
  rewrite (delete_product_without_sales ev c st u id p) by done. cbn.
  destruct c as [cu cp]; simpl in Hu; subst cu.
  repeat split; run_view; by rewrite lookup_delete_eq.
Qed.

End Behaviour.

(** ** The views on a concrete shop *)

Import Shop Scenes.

(** C3: deleting a product that has sales fails.  Product 1 of [shop] is
    referenced by sale 1; the request to delete it, from a logged-in
    session, ends in a server error, and the product is still in the store
    and in the catalog listing afterwards. *)
Theorem delete_product_with_sales_keeps_product :
  let o := handle (GET_delete_product 1) noon as_ann shop in
  product_table shop !! 1 = Some mouse /\
  sale_table shop !! 1 = Some sold_mice /\
  product_id sold_mice = 1 /\
  response o = failed InternalServerError /\
  flashes o = [] /\
  store o = shop /\
  1 ∈ listed noon as_ann (store o).
Proof.
  cbn zeta.
  rewrite (delete_product_with_sales noon as_ann shop (str "ann") 1 mouse)
    by reflexivity.
  cbn. repeat split; try reflexivity.
  apply (bool_decide_unpack _). exact I.
Qed.

(** Ann sells three of the ten mice. *)
Lemma add_sale_creates_one_sale_witness :
  let o := handle (POST_add_sale {| form_product_id := 1;
                                    form_quantity := 3 |})
                  noon as_ann shop in
  (session_username as_ann = Some (str "ann") /\
   product_table shop !! 1 = Some mouse /\
   employee_table shop !! 1 = Some ann /\
   username ann = str "ann" /\
   3 <= stock mouse /\
   int64 3 = true /\
   int64 (stock mouse - 3) = true /\
   money_mul_int (price mouse) 3 = Some (baht 750) /\
   money_is_nan (baht 750) = false) /\
  response o = redirect ep_sales /\
  size (sale_table (store o)) = 2%nat /\
  (exists sid s, sale_table shop !! sid = None /\
                 sale_table (store o) !! sid = Some s /\
                 quantity s = 3 /\ total_price s = baht 750) /\
  exists p', product_table (store o) !! 1 = Some p' /\ stock p' = 7.
Proof.
  intros o.
  assert (session_username as_ann = Some (str "ann")) as H1 by reflexivity.
  assert (product_table shop !! 1 = Some mouse) as H2 by reflexivity.
  assert (employee_table shop !! 1 = Some ann) as H3 by reflexivity.
  assert (username ann = str "ann") as H4 by reflexivity.
  assert (3 <= stock mouse) as H5 by (cbn; lia).
  assert (int64 3 = true) as H6 by reflexivity.
  assert (int64 (stock mouse - 3) = true) as H7 by reflexivity.
  assert (money_mul_int (price mouse) 3 = Some (baht 750)) as H8
    by reflexivity.
  assert (money_is_nan (baht 750) = false) as H9 by reflexivity.
  destruct (add_sale_creates_one_sale noon as_ann shop (str "ann") 1 3 1
              mouse ann (baht 750) H1 H2 H3 H4 H5 H6 H7 H8 H9)
    as (Hr & _ & (sid & s & Hfresh & Hs & _ & Hq & Ht & _) & Hsize & _
        & (p' & Hp' & Hstock & _) & _).
  split; [by repeat split|]. split; [exact Hr|]. split; [exact Hsize|].
  split.
  - exists sid, s. split; [exact Hfresh|].
    split; [|split; [exact Hq | exact Ht]].
    unfold o. rewrite Hs. apply lookup_insert_eq.
  - exists p'. split; [exact Hp'|]. exact Hstock.
Defined.

(** Against C1 as it is worded, two sales by Ann that the stock covers and
    that create no sale row and lower no stock.  A sale of [- 2 ^ 63]
    mice would leave a stock of [2 ^ 63 + 10], which no INTEGER column
    holds: the commit is refused.  A sale of zero gold bars has the total
    [inf * 0], which is NaN, stored as NULL and refused by NOT NULL. *)
Lemma add_sale_creates_one_sale_counterexample :
  (session_username as_ann = Some (str "ann") /\
   employee_table shop !! 1 = Some ann /\
   username ann = str "ann") /\
  (let o := handle (POST_add_sale {| form_product_id := 1;
                                     form_quantity := - 2 ^ 63 |})
                   noon as_ann shop in
   product_table shop !! 1 = Some mouse /\
   - 2 ^ 63 <= stock mouse /\
   response o = failed InternalServerError /\
   sale_table (store o) = sale_table shop /\
   product_table (store o) !! 1 = Some mouse) /\
  (let o := handle (POST_add_sale {| form_product_id := 3;
                                     form_quantity := 0 |})
                   evening as_ann shop_with_gold in
   product_table shop_with_gold !! 3 = Some (entered gold_form 100 101) /\
   employee_table shop_with_gold = employee_table shop /\
   0 <= stock (entered gold_form 100 101) /\
   response o = failed InternalServerError /\
   sale_table (store o) = sale_table shop_with_gold /\
   size (sale_table (store o)) = size (sale_table shop_with_gold)).
Proof.
  split; [by repeat split|]. split.
  - cbn zeta. split; [reflexivity|]. split; [cbn; lia|].
    repeat split; reflexivity.
  - cbn zeta. split; [reflexivity|]. split; [reflexivity|].
    split; [cbn; lia|]. repeat split; reflexivity.
Qed.

(** Ann asks for eleven of the ten mice. *)
Lemma add_sale_insufficient_stock_witness :
  session_username as_ann = Some (str "ann") /\
  product_table shop !! 1 = Some mouse /\
  stock mouse < 11 /\
  handle (POST_add_sale {| form_product_id := 1; form_quantity := 11 |})
         noon as_ann shop
  = {| response := redirect ep_add_sale;
       flashes := [(msg_insufficient_stock, error)];
       session := as_ann;
       store := shop |}.
Proof.
  assert (session_username as_ann = Some (str "ann")) as H1 by reflexivity.
  assert (product_table shop !! 1 = Some mouse) as H2 by reflexivity.
  assert (stock mouse < 11) as H3 by (cbn; lia).
  split; [exact H1|]. split; [exact H2|]. split; [exact H3|].
  exact (add_sale_insufficient_stock noon as_ann shop (str "ann") 1 11 mouse
           H1 H2 H3).
Defined.

(** A sale of minus five mice leaves fifteen in stock. *)
Lemma add_sale_nonpositive_quantity_witness :
  let o := handle (POST_add_sale {| form_product_id := 1;
                                    form_quantity := -5 |})
                  noon as_ann shop in
  (session_username as_ann = Some (str "ann") /\
   product_table shop !! 1 = Some mouse /\
   employee_table shop !! 1 = Some ann /\
   username ann = str "ann" /\
   -5 <= 0 /\
   -5 <= stock mouse /\
   int64 (-5) = true /\
   int64 (stock mouse - -5) = true /\
   money_mul_int (price mouse) (-5) = Some (baht (-1250)) /\
   money_is_nan (baht (-1250)) = false) /\
  response o = redirect ep_sales /\
  (exists s, sale_table (store o) !! 2 = Some s /\
             quantity s = -5 /\ total_price s = baht (-1250)) /\
  exists p',
    product_table (store o) !! 1 = Some p' /\ stock p' = 10 + Z.abs (-5).
Proof.
  intros o.
  assert (session_username as_ann = Some (str "ann")) as H1 by reflexivity.
  assert (product_table shop !! 1 = Some mouse) as H2 by reflexivity.
  assert (employee_table shop !! 1 = Some ann) as H3 by reflexivity.
  assert (username ann = str "ann") as H4 by reflexivity.
  assert (-5 <= 0) as H5 by lia.
  assert (-5 <= stock mouse) as H6 by (cbn; lia).
  assert (int64 (-5) = true) as H7 by reflexivity.
  assert (int64 (stock mouse - -5) = true) as H8 by reflexivity.
  assert (money_mul_int (price mouse) (-5) = Some (baht (-1250))) as H9
    by reflexivity.
  assert (money_is_nan (baht (-1250)) = false) as H10 by reflexivity.
  destruct (add_sale_nonpositive_quantity noon as_ann shop (str "ann") 1 (-5)
              1 mouse ann (baht (-1250)) H1 H2 H3 H4 H5 H6 H7 H8 H9 H10)
    as (Hr & _ & (s & _ & Hs & _ & Hq & _ & Ht) & (p' & Hp' & Hstock & _)).
  split; [by repeat split|]. split; [exact Hr|]. split.
  - exists s. split; [exact Hs|]. split; [exact Hq | exact Ht].
  - exists p'. split; [exact Hp'|]. exact Hstock.
Defined.

(** Against C10 as it is worded, three sales of a nonpositive quantity, of
    an existing product whose stock is not below it, that commit nothing.
    Ann sells [- 2 ^ 64] cables: the quantity is outside the 64 bits of an
    INTEGER and the commit is refused.  Ann sells zero gold bars: the
    total [inf * 0] is NaN, stored as NULL and refused by NOT NULL.  Zed
    is logged in and is no employee: [employee.id] fails. *)
Lemma add_sale_nonpositive_quantity_counterexample :
  (session_username as_ann = Some (str "ann") /\
   employee_table shop !! 1 = Some ann /\
   username ann = str "ann") /\
  (let o := handle (POST_add_sale {| form_product_id := 2;
                                     form_quantity := - 2 ^ 64 |})
                   noon as_ann shop in
   product_table shop !! 2 = Some cable /\
   - 2 ^ 64 <= 0 /\ - 2 ^ 64 <= stock cable /\
   response o = failed InternalServerError /\
   store o = shop) /\
  (let o := handle (POST_add_sale {| form_product_id := 3;
                                     form_quantity := 0 |})
                   noon as_ann shop_with_gold in
   product_table shop_with_gold !! 3 = Some (entered gold_form 100 101) /\
   employee_table shop_with_gold = employee_table shop /\
   0 <= 0 /\ 0 <= stock (entered gold_form 100 101) /\
   response o = failed InternalServerError /\
   store o = shop_with_gold) /\
  (let o := handle (POST_add_sale {| form_product_id := 1;
                                     form_quantity := -5 |})
                   noon as_zed shop in
   session_username as_zed = Some (str "zed") /\
   product_table shop !! 1 = Some mouse /\
   -5 <= 0 /\ -5 <= stock mouse /\
   response o = failed InternalServerError /\
   store o = shop).
Proof.
  split; [by repeat split|]. split; [|split]; cbn zeta.
  - split; [reflexivity|]. split; [lia|]. split; [cbn; lia|].
    split; reflexivity.
  - split; [reflexivity|]. split; [reflexivity|]. split; [lia|].
    split; [cbn; lia|]. split; reflexivity.
  - split; [reflexivity|]. split; [reflexivity|]. split; [lia|].
    split; [cbn; lia|]. split; reflexivity.
Qed.

(** A password of eight characters without an uppercase letter. *)
Lemma register_password_policy_witness :
  weak (str "passw0rd") /\
  first_missing (str "passw0rd") msg_password_no_uppercase /\
  handle (POST_register (signup "cy" "cy@shop.test" "passw0rd"))
         noon anonymous shop
  = {| response := redirect ep_register;
       flashes := [(msg_password_no_uppercase, error)];
       session := anonymous;
       store := shop |}.
Proof.
  assert (weak (str "passw0rd")) as Hweak.
  { right. right. left. by apply re_search_class_false. }
  destruct (register_password_policy
              (signup "cy" "cy@shop.test" "passw0rd") noon anonymous shop)
    as (_ & Hrej & _).
  destruct (Hrej Hweak) as [Hmsg Ho].
  split; [exact Hweak|]. split; [exact Hmsg|]. exact Ho.
Defined.

(** A registration under the username of Ann. *)
Lemma register_duplicate_rejected_witness :
  let form := signup "ann" "new@shop.test" "Passw0rd" in
  let o := handle (POST_register form) noon anonymous shop in
  ((validate_password (form_password form)).1 = true /\
   form_password form = form_confirm_password form /\
   employee_table shop !! 1 = Some ann /\
   username ann = form_username form /\
   unique_credentials (employee_table shop)) /\
  response o = redirect ep_register /\
  store o = shop /\
  unique_credentials (employee_table (store o)).
Proof.
  intros form o.
  assert ((validate_password (form_password form)).1 = true) as H1
    by reflexivity.
  assert (form_password form = form_confirm_password form) as H2
    by reflexivity.
  assert (employee_table shop !! 1 = Some ann) as H3 by reflexivity.
  assert (username ann = form_username form) as H4 by reflexivity.
  assert (unique_credentials (employee_table shop)) as H5.
  { apply (bool_decide_unpack _). exact I. }
  destruct register_duplicate_rejected as [Hdup Hinv].
  destruct (Hdup form noon anonymous shop 1 ann H1 H2 H3 (or_introl H4))
    as (Hr & _ & _ & Hst).
  split; [by repeat split|]. split; [exact Hr|]. split; [exact Hst|].
  exact (Hinv form noon anonymous shop H5).
Defined.

(** An unknown user and Ann with a wrong password. *)
Lemma login_failures_indistinguishable_witness :
  let unknown := {| login_username := str "zed";
                    login_password := str "Passw0rd" |} in
  let wrong := {| login_username := str "ann";
                  login_password := str "Passw0rd!" |} in
  (map_Forall (fun _ e => username e <> login_username unknown)
     (employee_table shop) /\
   employee_table shop !! 1 = Some ann /\
   username ann = login_username wrong /\
   map_Forall (fun _ e' =>
       username e' = login_username wrong ->
       check_password_hash (password_hash e') (login_password wrong) = false)
     (employee_table shop)) /\
  response (handle (POST_login unknown) noon anonymous shop)
  = response (handle (POST_login wrong) noon anonymous shop) /\
  flashes (handle (POST_login unknown) noon anonymous shop)
  = flashes (handle (POST_login wrong) noon anonymous shop).
Proof.
  intros unknown wrong.
  assert (map_Forall (fun _ e => username e <> login_username unknown)
            (employee_table shop)) as H1.
  { apply (bool_decide_unpack _). exact I. }
  assert (employee_table shop !! 1 = Some ann) as H2 by reflexivity.
  assert (username ann = login_username wrong) as H3 by reflexivity.
  assert (map_Forall (fun _ e' =>
       username e' = login_username wrong ->
       check_password_hash (password_hash e') (login_password wrong) = false)
     (employee_table shop)) as H4.
  { apply (bool_decide_unpack _). exact I. }
  destruct (login_failures_indistinguishable noon noon anonymous anonymous
              shop shop unknown wrong 1 ann H1 H2 H3 H4)
    as (Hr & Hf & _).
  split; [by repeat split|]. split; [exact Hr | exact Hf].
Defined.

(** Ann logs in at noon; Bob's row is untouched. *)
Lemma login_success_witness :
  let form := {| login_username := str "ann";
                 login_password := str "Passw0rd" |} in
  let o := handle (POST_login form) noon anonymous shop in
  (employee_table shop !! 1 = Some ann /\
   username ann = login_username form /\
   map_Forall (fun k' e' => username e' = login_username form -> k' = 1)
     (employee_table shop) /\
   check_password_hash (password_hash ann) (login_password form) = true) /\
  response o = redirect ep_home /\
  session_username (session o) = Some (str "ann") /\
  (exists e', employee_table (store o) !! 1 = Some e' /\
              last_login e' = Some 100) /\
  employee_table (store o) !! 2 = Some bob.
Proof.
  intros form o.
  assert (employee_table shop !! 1 = Some ann) as H1 by reflexivity.
  assert (username ann = login_username form) as H2 by reflexivity.
  assert (map_Forall (fun k' e' => username e' = login_username form -> k' = 1)
            (employee_table shop)) as H3.
  { apply (bool_decide_unpack _). exact I. }
  assert (check_password_hash (password_hash ann) (login_password form)
          = true) as H4 by reflexivity.
  destruct (login_success noon anonymous shop form 1 ann H1 H2 H3 H4)
    as (Hr & _ & Hs & (e' & He' & Hlast & _) & Hother & _).
  split; [by repeat split|]. split; [exact Hr|].
  split; [exact (f_equal session_username Hs)|].
  split; [by exists e'|].
  exact (Hother 2 ltac:(discriminate)).
Defined.

(** The sales page without a session. *)
Lemma protected_route_requires_login_witness :
  (protected (endpoint (GET_sales (money := spec_float))) = true /\
   session_username anonymous = None) /\
  handle GET_sales noon anonymous shop
  = {| response := redirect ep_login;
       flashes := [(msg_login_first, error)];
       session := anonymous;
       store := shop |}.
Proof.
  assert (protected (endpoint (GET_sales (money := spec_float))) = true)
    as H1 by reflexivity.
  assert (session_username anonymous = None) as H2 by reflexivity.
  split; [by split|].
  exact (proj1 (protected_route_requires_login GET_sales noon anonymous shop
                  H1 H2)).
Defined.

(** Deleting the cable, and selling mice, keep sale 1 as it is. *)
Lemma sale_rows_immutable_witness :
  records_sale (GET_delete_product (money := spec_float) 2) = false /\
  sale_table shop !! 1 = Some sold_mice /\
  sale_table (store (handle (GET_delete_product 2) noon as_ann shop))
  = sale_table shop /\
  sale_table (store (handle (POST_add_sale {| form_product_id := 1;
                                         form_quantity := 3 |})
                       noon as_ann shop)) !! 1 = Some sold_mice.
Proof.
  assert (records_sale (GET_delete_product (money := spec_float) 2) = false)
    as H1 by reflexivity.
  assert (sale_table shop !! 1 = Some sold_mice) as H2 by reflexivity.
  split; [exact H1|]. split; [exact H2|]. split.
  - exact (proj1 (sale_rows_immutable (GET_delete_product 2) noon as_ann shop)
             H1).
  - exact (proj2 (sale_rows_immutable
                    (POST_add_sale {| form_product_id := 1;
                                      form_quantity := 3 |})
                    noon as_ann shop) 1 sold_mice H2).
Defined.

(** ** The further properties on the concrete shop *)

(** Ann is still there at the end of the day. *)
Lemma employees_never_removed_witness :
  employee_table shop !! 1 = Some ann /\
  exists e', employee_table (serve day shop) !! 1 = Some e' /\
             same_account ann e'.
Proof.
  assert (employee_table shop !! 1 = Some ann) as H1 by reflexivity.
  split; [exact H1|]. exact (employees_never_removed day shop 1 ann H1).
Defined.

(** The usernames and emails of [shop] stay unique through the day. *)
Lemma unique_credentials_invariant_witness :
  unique_credentials (employee_table shop) /\
  unique_credentials (employee_table (serve day shop)).
Proof.
  assert (unique_credentials (employee_table shop)) as H1.
  { apply (bool_decide_unpack _). exact I. }
  split; [exact H1|]. exact (unique_credentials_invariant day shop H1).
Defined.

(** The mouse has been sold and survives the day. *)
Lemma sold_product_never_deleted_witness :
  has_sales 1 (sale_table shop) = true /\
  is_Some (product_table shop !! 1) /\
  is_Some (product_table (serve day shop) !! 1).
Proof.
  assert (has_sales 1 (sale_table shop) = true) as H1 by reflexivity.
  assert (is_Some (product_table shop !! 1)) as H2 by (by exists mouse).
  split; [exact H1|]. split; [exact H2|].
  exact (proj1 (sold_product_never_deleted day shop 1 H1 H2)).
Defined.

(** Cy registers. *)
Lemma register_creates_employee_witness :
  let form := signup "cy" "cy@shop.test" "Passw0rd" in
  let o := handle (POST_register form) noon anonymous shop in
  ((validate_password (form_password form)).1 = true /\
   form_password form = form_confirm_password form /\
   map_Forall (fun _ e => username e <> form_username form)
     (employee_table shop) /\
   map_Forall (fun _ e => email e <> form_email form)
     (employee_table shop)) /\
  response o = redirect ep_login /\
  session o = anonymous /\
  employee_table shop !! 3 = None /\
  username <$> employee_table (store o) !! 3 = Some (str "cy").
Proof.
  intros form o.
  assert ((validate_password (form_password form)).1 = true) as H1
    by reflexivity.
  assert (form_password form = form_confirm_password form) as H2
    by reflexivity.
  assert (map_Forall (fun _ e => username e <> form_username form)
            (employee_table shop)) as H3.
  { apply (bool_decide_unpack _). exact I. }
  assert (map_Forall (fun _ e => email e <> form_email form)
            (employee_table shop)) as H4.
  { apply (bool_decide_unpack _). exact I. }
  destruct (register_creates_employee form noon anonymous shop H1 H2 H3 H4)
    as (Hr & _ & Hs & Hfresh & Hnew & _).
  split; [by repeat split|]. split; [exact Hr|]. split; [exact Hs|].
  split; [exact Hfresh|]. exact (f_equal (fmap username) Hnew).
Defined.

(** A registration that mistypes the confirmation. *)
Lemma register_password_mismatch_witness :
  let form := {| form_username := str "cy";
                 form_password := str "Passw0rd";
                 form_confirm_password := str "Passw0rt";
                 form_fullname := str "Cy Doe";
                 form_position := str "clerk";
                 form_email := str "cy@shop.test";
                 form_phone := str "0800000000" |} in
  ((validate_password (form_password form)).1 = true /\
   form_password form <> form_confirm_password form) /\
  handle (POST_register form) noon anonymous shop
  = {| response := redirect ep_register;
       flashes := [(msg_password_mismatch, error)];
       session := anonymous;
       store := shop |}.
Proof.
  intros form.
  assert ((validate_password (form_password form)).1 = true) as H1
    by reflexivity.
  assert (form_password form <> form_confirm_password form) as H2
    by discriminate.
  split; [by split|].
  exact (register_password_mismatch form noon anonymous shop H1 H2).
Defined.

(** Cy registers at noon and logs in in the evening. *)
Lemma register_then_login_witness :
  let form := signup "cy" "cy@shop.test" "Passw0rd" in
  let st' := store (handle (POST_register form) noon anonymous shop) in
  let o := handle (POST_login {| login_username := str "cy";
                                 login_password := str "Passw0rd" |})
                  evening anonymous st' in
  ((validate_password (form_password form)).1 = true /\
   form_password form = form_confirm_password form /\
   map_Forall (fun _ e => username e <> form_username form)
     (employee_table shop) /\
   map_Forall (fun _ e => email e <> form_email form)
     (employee_table shop) /\
   check_password_hash
     (generate_password_hash (salt noon) (form_password form))
     (form_password form) = true) /\
  response o = redirect ep_home /\
  session_username (session o) = Some (str "cy").
Proof.
  intros form st' o.
  assert ((validate_password (form_password form)).1 = true) as H1
    by reflexivity.
  assert (form_password form = form_confirm_password form) as H2
    by reflexivity.
  assert (map_Forall (fun _ e => username e <> form_username form)
            (employee_table shop)) as H3.
  { apply (bool_decide_unpack _). exact I. }
  assert (map_Forall (fun _ e => email e <> form_email form)
            (employee_table shop)) as H4.
  { apply (bool_decide_unpack _). exact I. }
  assert (check_password_hash
            (generate_password_hash (salt noon) (form_password form))
            (form_password form) = true) as H5 by reflexivity.
  destruct (register_then_login form noon evening anonymous anonymous shop
              H1 H2 H3 H4 H5) as (Hr & Hs & _).
  split; [by repeat split|]. split; [exact Hr | exact Hs].
Defined.

(** Ann logs out and asks for the sales page. *)
Lemma logout_closes_gate_witness :
  let o := handle GET_logout noon as_ann shop in
  protected (endpoint (GET_sales (money := spec_float))) = true /\
  session_username (session o) = None /\
  response (handle GET_sales evening (session o) (store o))
  = redirect ep_login.
Proof.
  intros o.
  assert (protected (endpoint (GET_sales (money := spec_float))) = true)
    as H1 by reflexivity.
  destruct (logout_closes_gate GET_sales noon evening as_ann shop H1)
    as (_ & _ & Hs & _ & _ & Hgate).
  split; [exact H1|]. split; [exact Hs|].
  exact (f_equal response Hgate).
Defined.

(** Ann logs in and sees the mouse. *)
Lemma login_opens_gate_witness :
  let o := handle (POST_login login_ann) noon anonymous shop in
  (employee_table shop !! 1 = Some ann /\
   username ann = login_username login_ann /\
   map_Forall (fun k' e' => username e' = login_username login_ann -> k' = 1)
     (employee_table shop) /\
   check_password_hash (password_hash ann) (login_password login_ann)
   = true) /\
  exists rows,
    response (handle GET_products evening (session o) (store o))
    = render_template (products_html rows) /\
    (1, mouse) ∈ rows.
Proof.
  intros o.
  assert (employee_table shop !! 1 = Some ann) as H1 by reflexivity.
  assert (username ann = login_username login_ann) as H2 by reflexivity.
  assert (map_Forall
            (fun k' e' => username e' = login_username login_ann -> k' = 1)
            (employee_table shop)) as H3.
  { apply (bool_decide_unpack _). exact I. }
  assert (check_password_hash (password_hash ann)
            (login_password login_ann) = true) as H4 by reflexivity.
  destruct (login_opens_gate login_ann noon evening anonymous shop 1 ann
              H1 H2 H3 H4) as (rows & Hr & Hrows).
  split; [by repeat split|]. exists rows. split; [exact Hr|].
  apply Hrows. reflexivity.
Defined.



(** There is no product 7 in [shop]. *)
Lemma missing_product_not_found_witness :
  (session_username as_ann = Some (str "ann") /\
   product_table shop !! 7 = None /\
   int64 7 = true) /\
  response (handle (GET_edit_product 7) noon as_ann shop) = failed NotFound /\
  handle (GET_delete_product 7) noon as_ann shop
  = {| response := failed NotFound; flashes := [];
       session := as_ann; store := shop |}.
Proof.
  assert (session_username as_ann = Some (str "ann")) as H1 by reflexivity.
  assert (product_table shop !! 7 = None) as H2 by reflexivity.
  assert (int64 7 = true) as H3 by reflexivity.
  destruct (missing_product_not_found 7 keyboard_form 1 noon as_ann shop
              (str "ann") H1 H2 H3) as (Hget & _ & Hdel & _).
  split; [by repeat split|].
  split; [exact (f_equal response Hget) | exact Hdel].
Defined.

(** A sale from the session of Zed, who is no employee. *)
Lemma add_sale_unknown_employee_witness :
  (session_username as_zed = Some (str "zed") /\
   map_Forall (fun _ e => username e <> str "zed") (employee_table shop) /\
   product_table shop !! 1 = Some mouse /\
   3 <= stock mouse) /\
  handle (POST_add_sale {| form_product_id := 1; form_quantity := 3 |})
         noon as_zed shop
  = {| response := failed InternalServerError;
       flashes := [];
       session := as_zed;
       store := shop |}.
Proof.
  assert (session_username as_zed = Some (str "zed")) as H1 by reflexivity.
  assert (map_Forall (fun _ e => username e <> str "zed")
            (employee_table shop)) as H2.
  { apply (bool_decide_unpack _). exact I. }
  assert (product_table shop !! 1 = Some mouse) as H3 by reflexivity.
  assert (3 <= stock mouse) as H4 by (cbn; lia).
  split; [by repeat split|].
  exact (add_sale_unknown_employee noon as_zed shop (str "zed") 1 3 mouse
           H1 H2 H3 H4).
Defined.

(** Selling minus five mice keeps every stock of [shop] nonnegative. *)
Lemma add_sale_keeps_stock_nonnegative_witness :
  stock_nonnegative (product_table shop) /\
  stock_nonnegative
    (product_table
       (store (handle (POST_add_sale {| form_product_id := 1;
                                        form_quantity := -5 |})
                      noon as_ann shop))).
Proof.
  assert (stock_nonnegative (product_table shop)) as H1.
  { apply (bool_decide_unpack _). exact I. }
  split; [exact H1|].
  exact (add_sale_keeps_stock_nonnegative
           {| form_product_id := 1; form_quantity := -5 |} noon as_ann shop
           H1).
Defined.

(** A valid password between two pieces of text. *)
Lemma validate_password_extend_witness :
  (validate_password (str "Passw0rd")).1 = true /\
  (validate_password (str "[[" ++ str "Passw0rd" ++ str " !!")).1 = true.
Proof.
  assert ((validate_password (str "Passw0rd")).1 = true) as H1
    by reflexivity.
  split; [exact H1|].
  exact (validate_password_extend (str "[[") (str "Passw0rd") (str " !!") H1).
Defined.

(** Ann sells three mice, then four more. *)
Lemma add_sale_twice_witness :
  let o1 := handle (POST_add_sale {| form_product_id := 1;
                                     form_quantity := 3 |})
                   noon as_ann shop in
  let o2 := handle (POST_add_sale {| form_product_id := 1;
                                     form_quantity := 4 |})
                   evening (session o1) (store o1) in
  (session_username as_ann = Some (str "ann") /\
   product_table shop !! 1 = Some mouse /\
   employee_table shop !! 1 = Some ann /\
   username ann = str "ann" /\
   3 <= stock mouse /\
   4 <= stock mouse - 3 /\
   int64 3 = true /\
   int64 4 = true /\
   int64 (stock mouse - 3) = true /\
   int64 (stock mouse - 3 - 4) = true /\
   money_mul_int (price mouse) 3 = Some (baht 750) /\
   money_mul_int (price mouse) 4 = Some (baht 1000) /\
   money_is_nan (baht 750) = false /\
   money_is_nan (baht 1000) = false) /\
  (exists p', product_table (store o2) !! 1 = Some p' /\ stock p' = 3) /\
  size (sale_table (store o2)) = 3%nat.
Proof.
  intros o1 o2.
  assert (session_username as_ann = Some (str "ann")) as H1 by reflexivity.
  assert (product_table shop !! 1 = Some mouse) as H2 by reflexivity.
  assert (employee_table shop !! 1 = Some ann) as H3 by reflexivity.
  assert (username ann = str "ann") as H4 by reflexivity.
  assert (3 <= stock mouse) as H5 by (cbn; lia).
  assert (4 <= stock mouse - 3) as H6 by (cbn; lia).
  assert (int64 3 = true) as H7 by reflexivity.
  assert (int64 4 = true) as H8 by reflexivity.
  assert (int64 (stock mouse - 3) = true) as H9 by reflexivity.
  assert (int64 (stock mouse - 3 - 4) = true) as H10 by reflexivity.
  assert (money_mul_int (price mouse) 3 = Some (baht 750)) as H11
    by reflexivity.
  assert (money_mul_int (price mouse) 4 = Some (baht 1000)) as H12
    by reflexivity.
  assert (money_is_nan (baht 750) = false) as H13 by reflexivity.
  assert (money_is_nan (baht 1000) = false) as H14 by reflexivity.
  destruct (add_sale_twice noon evening as_ann shop (str "ann") 1 3 4 1
              mouse ann (baht 750) (baht 1000)
              H1 H2 H3 H4 H5 H6 H7 H8 H9 H10 H11 H12 H13 H14)
    as (_ & (p' & Hp' & Hstock) & Hsize & _).
  split; [by repeat split|]. split; [|exact Hsize].
  exists p'. split; [exact Hp' | exact Hstock].
Defined.

(** The sales page of [shop]. *)
Lemma sales_newest_first_witness :
  session_username as_ann = Some (str "ann") /\
  exists rows,
    response (handle GET_sales noon as_ann shop)
    = render_template (sales_html rows) /\
    (1, sold_mice) ∈ rows.
Proof.
  assert (session_username as_ann = Some (str "ann")) as H1 by reflexivity.
  destruct (sales_newest_first noon as_ann shop (str "ann") H1)
    as (rows & Ho & _ & Hrows & _).
  split; [exact H1|]. exists rows.
  split; [exact (f_equal response Ho)|]. apply Hrows. reflexivity.
Defined.

(** The dashboard of Ann. *)
Lemma home_dashboard_witness :
  session_username as_ann = Some (str "ann") /\
  exists employee products recent,
    response (handle GET_home noon as_ann shop)
    = render_template (dashboard_html employee products recent) /\
    length recent = 1%nat.
Proof.
  assert (session_username as_ann = Some (str "ann")) as H1 by reflexivity.
  destruct (home_dashboard noon as_ann shop (str "ann") H1)
    as (employee & products & recent & Ho & _ & _ & _ & Hlen & _).
  split; [exact H1|]. exists employee, products, recent.
  split; [exact (f_equal response Ho) | exact Hlen].
Defined.

(** The edit page of the cable. *)
Lemma pages_change_nothing_witness :
  shows_page (GET_edit_product (money := spec_float) 2) = true /\
  store (handle (GET_edit_product 2) noon as_ann shop) = shop /\
  session (handle (GET_edit_product 2) noon as_ann shop) = as_ann.
Proof.
  assert (shows_page (GET_edit_product (money := spec_float) 2) = true)
    as H1 by reflexivity.
  split; [exact H1|].
  exact (pages_change_nothing (GET_edit_product 2) noon as_ann shop H1).
Defined.

(** A registration leaves the session of Ann as it is. *)
Lemma session_changes_only_by_login_logout_witness :
  keeps_session (POST_register (money := spec_float)
                   (signup "cy" "cy@shop.test" "Passw0rd")) = true /\
  session (handle (POST_register (signup "cy" "cy@shop.test" "Passw0rd"))
                  noon as_ann shop) = as_ann.
Proof.
  assert (keeps_session (POST_register (money := spec_float)
                           (signup "cy" "cy@shop.test" "Passw0rd")) = true)
    as H1 by reflexivity.
  split; [exact H1|].
  exact (session_changes_only_by_login_logout
           (POST_register (signup "cy" "cy@shop.test" "Passw0rd"))
           noon as_ann shop H1).
Defined.


(** The cable has no sales: Ann deletes it, and it is gone. *)
Lemma delete_product_then_not_found_witness :
  let o := handle (GET_delete_product 2) noon as_ann shop in
  (session_username as_ann = Some (str "ann") /\
   product_table shop !! 2 = Some cable /\
   has_sales 2 (sale_table shop) = false) /\
  response o = redirect ep_products /\
  response (handle (GET_edit_product 2) evening (session o) (store o))
  = failed NotFound.
Proof.
  intros o.
  assert (session_username as_ann = Some (str "ann")) as H1 by reflexivity.
  assert (product_table shop !! 2 = Some cable) as H2 by reflexivity.
  assert (has_sales 2 (sale_table shop) = false) as H3 by reflexivity.
  destruct (delete_product_then_not_found 2 1 noon evening as_ann shop
              (str "ann") cable H1 H2 H3) as (Hr & Hedit & _).
  split; [by repeat split|]. split; [exact Hr | exact Hedit].
Defined.
